(** * SageAlpha chat backend (app.py): topic-aware session memory and
      hybrid retrieval-augmented answer construction.

    A shallow embedding of the chat backend of [src/app.py] and the
    properties of its five components: Topic Tracker ([extract_topic]),
    Session Memory Builder ([build_session_memory_sections]), Retrieval
    Gate and Prompt Assembler ([build_hybrid_messages]) and the
    Conversation Store (the [SESSIONS] dictionary and the Flask session)
    driven by the request handlers [chat], [chat_session], [query] and
    [reset_history].

    Conventions.
    - A Python [str] is a [string]; a character is read as the code point
      of its byte (0..255), so the model is exact on Latin-1 text.
    - A Python [int] is a [Z]; slices follow the index normalisation of
      the language (a negative index counts from the end, then clamps).
    - A Python [float] is a binary64 [float].
    - [None] is [None]; [x or ""] turns [None] into the empty string.
    - The search service, the language model, [uuid4] and [utcnow] are
      outside the program: every handler takes their answers for the
      current request as a record of externals and logs each call to the
      search service and to the language model. *)

From Stdlib Require Import ZArith Floats Ascii String List Lia Bool.
From stdpp Require Import base option list gmap strings.

Set Warnings "-inexact-float".
Local Open Scope string_scope.

(* ================================================================== *)
(** ** Python built-ins used by app.py *)
(* ================================================================== *)

Module Py.

(** The newline character and the string made of it. *)
Definition nl_char : ascii := ascii_of_nat 10.
Definition nl : string := String nl_char "".

Definition code (c : ascii) : N := N_of_ascii c.

Definition in_range (lo hi : N) (c : ascii) : bool :=
  ((lo <=? code c) && (code c <=? hi))%N.

(** [str.isspace] on one character: TAB..CR, FS..US, space, NEL, NBSP. *)
Definition isspace (c : ascii) : bool :=
  in_range 9 13 c || in_range 28 32 c || (code c =? 133)%N || (code c =? 160)%N.

(** [str.lower] on one character: A-Z, and the Latin-1 capitals
    U+00C0..U+00DE without the multiplication sign U+00D7. *)
Definition lower_char (c : ascii) : ascii :=
  if in_range 65 90 c || in_range 192 214 c || in_range 216 222 c
  then ascii_of_N (code c + 32)
  else c.

Fixpoint lower (s : string) : string :=
  match s with
  | EmptyString => EmptyString
  | String c s' => String (lower_char c) (lower s')
  end.

Fixpoint lstrip (s : string) : string :=
  match s with
  | EmptyString => EmptyString
  | String c s' => if isspace c then lstrip s' else s
  end.

Fixpoint rstrip (s : string) : string :=
  match s with
  | EmptyString => EmptyString
  | String c s' =>
      match rstrip s' with
      | EmptyString => if isspace c then EmptyString else String c EmptyString
      | r => String c r
      end
  end.

(** [s.strip()] *)
Definition strip (s : string) : string := rstrip (lstrip s).

(** Truth value of a string: [not s] holds of the empty string only. *)
Definition truthy (s : string) : bool :=
  match s with EmptyString => false | _ => true end.

(** [x or ""] for [x : str | None]. *)
Definition or_empty (x : option string) : string := default "" x.

(** The character class [[a-z0-9]]. *)
Definition is_lower_alnum (c : ascii) : bool :=
  in_range 97 122 c || in_range 48 57 c.

(** [re.findall(r"[a-z0-9]+", s)]: the maximal runs of class
    characters, left to right. [cur] is the run being read. *)
Fixpoint findall_runs (cur : string) (s : string) : list string :=
  match s with
  | EmptyString => if truthy cur then [cur] else []
  | String c s' =>
      if is_lower_alnum c then findall_runs (cur ++ String c "") s'
      else if truthy cur then cur :: findall_runs "" s'
      else findall_runs "" s'
  end.

Definition findall_lower_alnum (s : string) : list string := findall_runs "" s.

(** [needle in hay] on strings. *)
Fixpoint contains (needle hay : string) : bool :=
  String.prefix needle hay ||
  match hay with
  | EmptyString => false
  | String _ hay' => contains needle hay'
  end.

(** Normalisation of one slice bound [i] against a sequence of length
    [n]: a negative bound counts from the end; the result is clamped to
    [0..n]. *)
Definition slice_index (i : Z) (n : nat) : nat :=
  if (i <? 0)%Z then Z.to_nat (Z.max 0 (i + Z.of_nat n))
  else Nat.min (Z.to_nat i) n.

(** [l[start:]] on a list. *)
Definition list_from {A} (start : Z) (l : list A) : list A :=
  drop (slice_index start (length l)) l.

(** The first [n] characters of a string. *)
Fixpoint str_take (n : nat) (s : string) : string :=
  match n, s with
  | S n', String c s' => String c (str_take n' s')
  | _, _ => EmptyString
  end.

(** [s[:stop]] on a string. *)
Definition str_upto (stop : Z) (s : string) : string :=
  str_take (slice_index stop (String.length s)) s.

(** [sep.join(parts)] *)
Definition join (sep : string) (parts : list string) : string :=
  String.concat sep parts.

End Py.

(* ================================================================== *)
(** ** 4.1 Topic Tracker: extract_topic *)
(* ================================================================== *)

(** The set literal [question_starts] of [extract_topic]. *)
Definition question_starts : gset string :=
  {[ "who"; "what"; "which"; "when"; "where"; "why"; "how"; "give";
     "tell"; "show"; "explain"; "owner"; "ceo"; "chairman"; "md";
     "director" ]}.

(** [extract_topic(user_msg, last_topic=None)] *)
Definition extract_topic (user_msg : string) (last_topic : option string)
  : option string :=
  if negb (Py.truthy user_msg) then last_topic
  else
    let text := Py.lower (Py.strip user_msg) in
    let tokens := Py.findall_lower_alnum text in
    match tokens with
    | [] => last_topic
    | tok0 :: _ =>
        if bool_decide (tok0 ∈ question_starts) then last_topic
        else if (length tokens <=? 4)%nat then Some text
        else last_topic
    end.

(* ================================================================== *)
(** ** 3. Data model *)
(* ================================================================== *)

Inductive Role := system | user | assistant.

#[global] Instance Role_eq_dec : EqDecision Role.
Proof. solve_decision. Defined.

(** A message dictionary: ["role"], ["content"] and, in the multi-session
    store only, ["meta"] (always the empty dictionary there). *)
Record Message := mkMessage {
  role : Role;
  content : string;
  msg_meta : option (list (string * string));
}.

(** [{"role": r, "content": c}] *)
Definition msg (r : Role) (c : string) : Message := mkMessage r c None.
(** [{"role": r, "content": c, "meta": {}}] *)
Definition msg_with_meta (r : Role) (c : string) : Message := mkMessage r c (Some []).

(** One question/answer exchange: the keys ["timestamp"], ["query"] and
    ["answer"] of a section dictionary. *)
Record QASection := mkSection {
  sec_timestamp : string;
  sec_query : string;
  sec_answer : string;
}.

(** The value under ["source"] in a document's [meta] dictionary: the key
    may be missing, hold [None], or hold a string. *)
Inductive MetaSource :=
| SourceMissing
| SourceNone
| SourceStr (s : string).

Record DocMeta := mkDocMeta {
  source : MetaSource;
  people : option (list string);
  organizations : option (list string);
  locations : option (list string);
}.

(** A retrieved document in the unified shape of [search_azure]. *)
Record Doc := mkDoc {
  doc_id : string;
  text : string;
  meta : DocMeta;
  score : float;
}.

(** [meta.get("source", dflt)] inside an f-string: [None] prints as
    ["None"]. *)
Definition meta_get_source_fmt (m : DocMeta) (dflt : string) : string :=
  match source m with
  | SourceMissing => dflt
  | SourceNone => "None"
  | SourceStr s => s
  end.

(** [meta.get("source")] as a JSON value: a string or null. *)
Definition meta_get_source (m : DocMeta) : option string :=
  match source m with
  | SourceStr s => Some s
  | _ => None
  end.

(* ================================================================== *)
(** ** 4.2 Session Memory Builder: build_session_memory_sections *)
(* ================================================================== *)

(** The test of the filtering loop:
    [normalized_topic in q or normalized_topic in a]. *)
Definition topic_in_section (normalized_topic : string) (s : QASection) : bool :=
  let q := Py.lower (sec_query s) in
  let a := Py.lower (sec_answer s) in
  Py.contains normalized_topic q || Py.contains normalized_topic a.

(** [f"[{timestamp}] Q: {query}\nA: {answer}"] *)
Definition section_block (s : QASection) : string :=
  "[" ++ sec_timestamp s ++ "] Q: " ++ sec_query s ++ Py.nl ++ "A: " ++ sec_answer s.

(** Lines 255-263: the sections that mention the topic (none when the
    normalised topic is empty). *)
Definition topic_filtered (sections : list QASection) (current_topic : option string)
  : list QASection :=
  let normalized_topic := Py.strip (Py.lower (Py.or_empty current_topic)) in
  if Py.truthy normalized_topic
  then List.filter (topic_in_section normalized_topic) sections
  else [].

(** Lines 265-269: the sections kept for rendering. *)
Definition kept_sections (sections : list QASection) (current_topic : option string)
    (limit : Z) : list QASection :=
  match topic_filtered sections current_topic with
  | [] => Py.list_from (- limit) sections
  | filtered => Py.list_from (- limit) filtered
  end.

(** Lines 271-278: blocks joined by a blank line, cut at [max_chars]. *)
Definition render_sections (kept : list QASection) (max_chars : Z) : string :=
  let parts := map section_block kept in
  let memory_text := Py.join (Py.nl ++ Py.nl) parts in
  Py.str_upto max_chars memory_text.

(** [build_session_memory_sections(sections, current_topic, limit, max_chars)] *)
Definition build_session_memory_sections (sections : list QASection)
    (current_topic : option string) (limit max_chars : Z) : string :=
  match sections with
  | [] => ""
  | _ => render_sections (kept_sections sections current_topic limit) max_chars
  end.

Definition default_limit : Z := 5.
Definition default_max_chars : Z := 1500.

(** The call as both handlers make it, with the default [limit] and
    [max_chars]. *)
Definition session_memory (sections : list QASection) (current_topic : option string)
  : string :=
  build_session_memory_sections sections current_topic default_limit default_max_chars.

(* ================================================================== *)
(** ** 4.3 Retrieval Gate and 4.4 Prompt Assembler: build_hybrid_messages *)
(* ================================================================== *)

Definition relevance_threshold : float := 0.35%float.

(** [r.get("score", 0.0) >= relevance_threshold] *)
Definition is_relevant (r : Doc) : bool :=
  PrimFloat.leb relevance_threshold (score r).

(** [f"Source: {r['meta'].get('source', r['doc_id'])}\n{r['text']}"] *)
Definition context_chunk (r : Doc) : string :=
  "Source: " ++ meta_get_source_fmt (meta r) (doc_id r) ++ Py.nl ++ text r.

Definition context_limit : Z := 6000.

(** Lines 288-301: the local [context_text]. *)
Definition context_text_of (retrieved_docs : list Doc) : string :=
  let relevant_docs := List.filter is_relevant retrieved_docs in
  match relevant_docs with
  | [] => ""
  | _ =>
      let context_chunks :=
        map context_chunk (List.filter (fun r => Py.truthy (text r)) relevant_docs) in
      Py.str_upto context_limit (Py.join (Py.nl ++ Py.nl) context_chunks)
  end.

Definition system_prompt : string :=
  "You are SageAlpha, a financial assistant powered by SageAlpha.ai." ++ Py.nl ++
  "Use this logic:" ++ Py.nl ++
  "1. If the Context contains useful information, use it to answer." ++ Py.nl ++
  "2. If the Context is empty or not relevant, answer using your own knowledge." ++ Py.nl ++
  "3. Be precise and financially accurate." ++ Py.nl ++
  "4. Respond in clear plain text only. Do not use markdown formatting, asterisks (" ++ "*" ++ ")," ++ Py.nl ++
  "   hash symbols (#), bullet lists, or code blocks." ++ Py.nl.

(** [build_hybrid_messages(user_msg, retrieved_docs, extra_system_msgs=None)];
    [None] and the empty list are the two falsy values of the third
    argument. *)
Definition build_hybrid_messages (user_msg : string) (retrieved_docs : list Doc)
    (extra_system_msgs : option (list Message)) : list Message :=
  let context_text := context_text_of retrieved_docs in
  let messages := [msg system system_prompt] in
  let messages :=
    match extra_system_msgs with
    | Some (m :: ms) => (messages ++ (m :: ms))%list
    | _ => messages
    end in
  let messages := (messages ++ [msg system ("Context:" ++ Py.nl ++ context_text)])%list in
  (messages ++ [msg user user_msg])%list.

Definition memory_label : string :=
  "Session memory (previous Q&A sections):" ++ Py.nl.

(** Lines 402-409 of [chat] (and 644-651 of [chat_session]): the extra
    system messages built from the session memory text. *)
Definition memory_messages (session_memory_text : string) : list Message :=
  if Py.truthy session_memory_text
  then [msg system (memory_label ++ session_memory_text)]
  else [].

(* ================================================================== *)
(** ** 6. External collaborators *)
(* ================================================================== *)

(** A field of a search hit as [r.get(name)] returns it: missing or
    [None], a string, or a list of strings. *)
Inductive FieldVal :=
| FieldNone
| FieldStr (s : string)
| FieldList (xs : list string).

(** One result [r] of [search_client.search]. *)
Record Hit := mkHit {
  hit_merged_content : FieldVal;
  hit_content : FieldVal;
  hit_imageCaption : FieldVal;
  hit_metadata_storage_path : option string;
  hit_source : option string;
  hit_id : option string;
  hit_people : option (list string);
  hit_organizations : option (list string);
  hit_locations : option (list string);
  hit_search_score : option float;
}.

Inductive SearchOutcome :=
| SearchRaises
| SearchResults (results : list Hit).

(** [client.chat.completions.create(...)] followed by
    [.choices[0].message.content]: the text, or an exception with its
    [str(e)]. *)
Inductive Completion :=
| CompletionText (ai_msg : string)
| CompletionRaises (err : string).

(** What the outside world answers during one request. *)
Record Externals := mkExternals {
  search_client : option (string -> Z -> SearchOutcome);
  completions_create : list Message -> Completion;
  uuid4 : string;
  utcnow_created : string;
  utcnow_section : string;
}.

(** The calls that leave the process. *)
Inductive Call :=
| CallSearch (search_text : string) (top : Z)
| CallCompletion (messages : list Message).

(** [a or b] on [str | None] values. *)
Definition or_else (a b : option string) : option string :=
  match a with
  | Some s => if Py.truthy s then a else b
  | None => b
  end.

(** The body of [for field_name in [...]]: the text added to
    [content_parts], if any. *)
Definition content_part (val : FieldVal) : option string :=
  let val :=
    match val with
    | FieldList xs => Some (Py.join " " xs)
    | FieldStr s => Some s
    | FieldNone => None
    end in
  match val with
  | Some s => if Py.truthy s then Some s else None
  | None => None
  end.

(** The body of [for r in results] in [search_azure]. *)
Definition hit_to_doc (r : Hit) : Doc :=
  let content_parts :=
    omap content_part [hit_merged_content r; hit_content r; hit_imageCaption r] in
  let text := Py.join Py.nl content_parts in
  let meta := {|
    source :=
      match or_else (hit_metadata_storage_path r) (hit_source r) with
      | Some s => SourceStr s
      | None => SourceNone
      end;
    people := hit_people r;
    organizations := hit_organizations r;
    locations := hit_locations r;
  |} in
  let doc_id :=
    Py.or_empty (or_else (or_else (hit_id r) (hit_metadata_storage_path r)) (Some "")) in
  let score := default 0%float (hit_search_score r) in
  {| doc_id := doc_id; text := text; meta := meta; score := score |}.

(** [search_azure(query_text, top_k)] with the calls it makes. *)
Definition search_azure (ext : Externals) (query_text : string) (top_k : Z)
  : list Doc * list Call :=
  match search_client ext with
  | None => ([], [])
  | Some client =>
      if negb (Py.truthy query_text) then ([], [])
      else
        match client query_text top_k with
        | SearchRaises => ([], [CallSearch query_text top_k])
        | SearchResults results => (map hit_to_doc results, [CallSearch query_text top_k])
        end
  end.

(* ================================================================== *)
(** ** Requests and responses *)
(* ================================================================== *)

(** The ["top_k"] entry of a request body under [int(payload.get("top_k", 5))]:
    missing, a value [int] accepts, or one on which [int] raises (with
    the text of the exception). *)
Inductive TopK :=
| TopKMissing
| TopKInt (k : Z)
| TopKInvalid (err : string).

Definition int_top_k (t : TopK) : Z + string :=
  match t with
  | TopKMissing => inl 5%Z
  | TopKInt k => inl k
  | TopKInvalid err => inr err
  end.

(** A JSON request body ([request.get_json(silent=True) or {}]); a missing
    key and a [null] both read as [None]. *)
Record Payload := mkPayload {
  p_message : option string;
  p_q : option string;
  p_session_id : option string;
  p_top_k : TopK;
}.

(** One entry of the ["sources"] list. *)
Record Citation := mkCitation {
  c_doc_id : string;
  c_source : option string;
  c_score : float;
}.

Definition citation (r : Doc) : Citation :=
  {| c_doc_id := doc_id r; c_source := meta_get_source (meta r); c_score := score r |}.

(** One stored conversation of the multi-session store. *)
Record Session := mkSession {
  sess_id : string;
  title : string;
  created : string;
  messages : list Message;
  sections : list QASection;
  current_topic : string;
}.

Inductive Response :=
| RespError (status : Z) (error : string)
| RespChat (id response : string) (sources : list Citation)
| RespChatError (id response error : string)
| RespChatSession (session_id response : string) (sources : list Citation)
| RespQuery (answer : string) (sources : list Citation)
| RespCleared
| RespSession (status : Z) (s : Session).

(** The HTTP status of a response. *)
Definition status_of (r : Response) : Z :=
  match r with
  | RespError status _ => status
  | RespChatError _ _ _ => 500
  | RespSession status _ => status
  | _ => 200
  end.

(** What a handler leaves behind: its response, the stored state after
    the request and the outgoing calls it made, oldest first. *)
Record Outcome (St : Type) := mkOutcome {
  response : Response;
  state : St;
  calls : list Call;
}.
Arguments mkOutcome {St} _ _ _.
Arguments response {St} _.
Arguments state {St} _.
Arguments calls {St} _.

(* ================================================================== *)
(** ** 4.5 Conversation Store and the request handlers *)
(* ================================================================== *)

(** *** The single ongoing conversation (Flask session) *)

(** The three keys the handlers keep in the Flask session; [None] is a
    missing key. Every request that passes validation assigns
    [session["current_topic"]], which marks the session as modified, so
    the dictionary as it stands at the end of the request is what the
    next request reads. *)
Record FlaskSession := mkFlaskSession {
  history : option (list Message);
  flask_sections : option (list QASection);
  flask_current_topic : option string;
}.

(** A session that holds none of the three keys: the state of a new
    visitor. *)
Definition new_flask_session : FlaskSession := mkFlaskSession None None None.

Definition seed_message : Message :=
  msg system
    "I’m SageAlpha, a financial assistant powered by SageAlpha.ai to support your financial decisions.".

(** Lines 377-388 of [chat]: the keys are created when missing. *)
Definition ensure_keys (session : FlaskSession) : FlaskSession :=
  let session :=
    match history session with
    | None => mkFlaskSession (Some [seed_message]) (flask_sections session)
                (flask_current_topic session)
    | Some _ => session
    end in
  let session :=
    match flask_sections session with
    | None => mkFlaskSession (history session) (Some []) (flask_current_topic session)
    | Some _ => session
    end in
  match flask_current_topic session with
  | None => mkFlaskSession (history session) (flask_sections session) (Some "")
  | Some _ => session
  end.

(** The route [/chat]. *)
Definition chat (ext : Externals) (payload : Payload) (session : FlaskSession)
  : Outcome FlaskSession :=
  let user_msg := Py.strip (Py.or_empty (p_message payload)) in
  if negb (Py.truthy user_msg) then
    mkOutcome (RespError 400 "Empty message") session []
  else
    let session := ensure_keys session in
    let history0 := default [] (history session) in
    let sections0 := default [] (flask_sections session) in
    let last_topic := default "" (flask_current_topic session) in
    let current_topic := extract_topic user_msg (Some last_topic) in
    let topic := Some (Py.or_empty current_topic) in
    let history1 := (history0 ++ [msg user user_msg])%list in
    let session1 := mkFlaskSession (Some history1) (Some sections0) topic in
    let session_memory_text := session_memory sections0 current_topic in
    let extra_system_msgs := memory_messages session_memory_text in
    match int_top_k (p_top_k payload) with
    | inr err => mkOutcome (RespError 500 err) session1 []
    | inl top_k =>
        let '(retrieved, search_calls) := search_azure ext user_msg top_k in
        let messages := build_hybrid_messages user_msg retrieved (Some extra_system_msgs) in
        let all_calls := (search_calls ++ [CallCompletion messages])%list in
        match completions_create ext messages with
        | CompletionText ai_msg =>
            let history2 := (history1 ++ [msg assistant ai_msg])%list in
            let sections1 :=
              (sections0 ++ [mkSection (utcnow_section ext) user_msg ai_msg])%list in
            let sources := map citation retrieved in
            mkOutcome (RespChat (uuid4 ext) ai_msg sources)
              (mkFlaskSession (Some history2) (Some sections1) topic) all_calls
        | CompletionRaises err =>
            let error_msg := "Backend error: " ++ err in
            mkOutcome (RespChatError (uuid4 ext) error_msg err) session1 all_calls
        end
    end.

(** The route [/reset_history]. *)
Definition reset_history (session : FlaskSession) : Outcome FlaskSession :=
  let session := mkFlaskSession None (flask_sections session) (flask_current_topic session) in
  let session := mkFlaskSession (history session) None (flask_current_topic session) in
  let session := mkFlaskSession (history session) (flask_sections session) None in
  mkOutcome RespCleared session [].

(** *** The multi-session store (the dictionary SESSIONS) *)

(** [create_session(title)]: the new entry and the store that holds it. *)
Definition create_session (ext : Externals) (title : string)
    (SESSIONS : gmap string Session) : Session * gmap string Session :=
  let sid := uuid4 ext in
  let now := utcnow_created ext in
  let s := {|
    sess_id := sid;
    title := if Py.truthy title then title else "New chat";
    created := now;
    messages := [];
    sections := [];
    current_topic := "";
  |} in
  (s, <[sid := s]> SESSIONS).

(** In-place updates of one stored dictionary. *)
Definition append_message (m : Message) (s : Session) : Session :=
  mkSession (sess_id s) (title s) (created s) (messages s ++ [m])%list
    (sections s) (current_topic s).

Definition append_section (x : QASection) (s : Session) : Session :=
  mkSession (sess_id s) (title s) (created s) (messages s)
    (sections s ++ [x])%list (current_topic s).

Definition set_current_topic (t : string) (s : Session) : Session :=
  mkSession (sess_id s) (title s) (created s) (messages s) (sections s) t.

Definition set_title (t : string) (s : Session) : Session :=
  mkSession (sess_id s) t (created s) (messages s) (sections s) (current_topic s).

(** Lines 628-633 of [chat_session]: the conversation the request is
    processed in, its id, and the store once it exists. *)
Definition ensure_session (ext : Externals) (session_id : option string)
    (SESSIONS : gmap string Session) : Session * string * gmap string Session :=
  let fresh :=
    let '(s, SESSIONS') := create_session ext "New chat" SESSIONS in
    (s, sess_id s, SESSIONS') in
  match session_id with
  | Some sid =>
      if Py.truthy sid then
        match SESSIONS !! sid with
        | Some s => (s, sid, SESSIONS)
        | None => fresh
        end
      else fresh
  | None => fresh
  end.

(** The route [/chat_session]. The dictionary [s] is the stored one, so
    each update of [s] is an update of the store at the key it is stored
    under. *)
Definition chat_session (ext : Externals) (payload : Payload)
    (SESSIONS : gmap string Session) : Outcome (gmap string Session) :=
  let session_id := p_session_id payload in
  let user_msg := Py.strip (Py.or_empty (p_message payload)) in
  if negb (Py.truthy user_msg) then
    mkOutcome (RespError 400 "Empty message") SESSIONS []
  else
    let '(s, session_id, SESSIONS) := ensure_session ext session_id SESSIONS in
    let key := session_id in
    let s := append_message (msg_with_meta user user_msg) s in
    let last_topic := current_topic s in
    let current_topic := extract_topic user_msg (Some last_topic) in
    let s := set_current_topic (Py.or_empty current_topic) s in
    let SESSIONS1 := <[key := s]> SESSIONS in
    let session_memory_text := session_memory (sections s) current_topic in
    let extra_system_msgs := memory_messages session_memory_text in
    match int_top_k (p_top_k payload) with
    | inr err => mkOutcome (RespError 500 err) SESSIONS1 []
    | inl top_k =>
        let '(retrieved, search_calls) := search_azure ext user_msg top_k in
        let messages := build_hybrid_messages user_msg retrieved (Some extra_system_msgs) in
        let all_calls := (search_calls ++ [CallCompletion messages])%list in
        match completions_create ext messages with
        | CompletionText ai_msg =>
            let s := append_message (msg_with_meta assistant ai_msg) s in
            let s := append_section (mkSection (utcnow_section ext) user_msg ai_msg) s in
            let sources := map citation retrieved in
            mkOutcome (RespChatSession session_id ai_msg sources)
              (<[key := s]> SESSIONS) all_calls
        | CompletionRaises err =>
            mkOutcome (RespError 500 err) SESSIONS1 all_calls
        end
    end.

(** The route [POST /sessions]. *)
Definition create_session_route (ext : Externals) (data_title : option string)
    (SESSIONS : gmap string Session) : Outcome (gmap string Session) :=
  let title := Py.or_empty (or_else data_title (Some "New chat")) in
  let '(s, SESSIONS) := create_session ext title SESSIONS in
  mkOutcome (RespSession 201 s) SESSIONS [].

(** The route [POST /sessions/<session_id>/rename]. *)
Definition rename_session (session_id : string) (data_title : option string)
    (SESSIONS : gmap string Session) : Outcome (gmap string Session) :=
  match SESSIONS !! session_id with
  | None => mkOutcome (RespError 404 "Session not found") SESSIONS []
  | Some s =>
      let title := Py.strip (Py.or_empty data_title) in
      let s := if Py.truthy title then set_title title s else s in
      mkOutcome (RespSession 200 s) (<[session_id := s]> SESSIONS) []
  end.

(** *** The one-shot route [/query] *)

(** [strip_markdown] is a chain of regular-expression substitutions on
    the answer text; [query] is stated for any such text function. *)
Definition query (strip_markdown : string -> string) (ext : Externals)
    (payload : Payload) : Outcome unit :=
  let q := Py.strip (Py.or_empty (p_q payload)) in
  if negb (Py.truthy q) then
    mkOutcome (RespError 400 "Empty query") tt []
  else
    match int_top_k (p_top_k payload) with
    | inr err => mkOutcome (RespError 500 err) tt []
    | inl top_k =>
        let '(final_results, search_calls) := search_azure ext q top_k in
        let messages := build_hybrid_messages q final_results None in
        let all_calls := (search_calls ++ [CallCompletion messages])%list in
        match completions_create ext messages with
        | CompletionText ai_msg =>
            let ai_msg := strip_markdown ai_msg in
            let sources := map citation final_results in
            mkOutcome (RespQuery ai_msg sources) tt all_calls
        | CompletionRaises err => mkOutcome (RespError 500 err) tt all_calls
        end
    end.


(* ================================================================== *)
(** ** Notions used in the statements *)
(* ================================================================== *)

(** Every character of [s] satisfies [p]. *)
Fixpoint all_chars (p : ascii -> bool) (s : string) : bool :=
  match s with
  | EmptyString => true
  | String c s' => p c && all_chars p s'
  end.

(** A token of [findall_lower_alnum] is a non-empty run of [[a-z0-9]]. *)
Definition is_token (t : string) : Prop :=
  t <> "" /\ all_chars Py.is_lower_alnum t = true.


(** A system message whose content starts with the label [Context:]. *)
Definition is_context_message (m : Message) : bool :=
  bool_decide (role m = system) && String.prefix "Context:" (content m).

(** The Prompt Assembler as the three routes call it: [memory_text] is
    [None] on the route without memory ([query], which passes no extra
    system messages) and the session memory text on [chat] and
    [chat_session]. *)
Definition prompt_messages (user_msg : string) (retrieved_docs : list Doc)
    (memory_text : option string) : list Message :=
  build_hybrid_messages user_msg retrieved_docs (memory_messages <$> memory_text).

(** Two documents on either side of the relevance threshold. *)
Definition doc_at_threshold : Doc :=
  mkDoc "doc-a" "Revenue grew." (mkDocMeta (SourceStr "reports/a.pdf") None None None)
    0.35%float.

Definition doc_below_threshold : Doc :=
  mkDoc "doc-b" "Unrelated." (mkDocMeta SourceMissing None None None) 0.34%float.

(** *** The Session Memory Builder on list objects

    Python lists are objects: the builder receives a reference to the
    stored list of sections and works on lists it creates itself. The
    heap maps an address to the content of the list object stored
    there. *)





(** The two turns of the specification's scenario. *)
Definition section_cupid : QASection :=
  mkSection "2024-01-01T10:00:00" "Cupid Limited" "Cupid Limited makes consumer goods.".


(** *** Notions for the request handlers *)

(** A message text that is missing or holds nothing but whitespace (the
    empty text included). *)
Definition blank (m : option string) : Prop :=
  match m with
  | None => True
  | Some s => all_chars Py.isspace s = true
  end.

(** A session id that is absent or names no stored conversation. *)
Definition unknown_session (session_id : option string)
    (SESSIONS : gmap string Session) : Prop :=
  match session_id with
  | None => True
  | Some sid => SESSIONS !! sid = None
  end.

(** Two search hits, one above and one below the relevance threshold. *)
Definition hit_relevant : Hit :=
  mkHit (FieldStr "Cupid Limited annual report.") FieldNone FieldNone
    (Some "https://store/reports/cupid.pdf") None (Some "doc-1") None None None
    (Some 0.9%float).

Definition hit_irrelevant : Hit :=
  mkHit FieldNone (FieldList ["Weather"; "notes"]) FieldNone
    None None (Some "doc-2") None None None (Some 0.1%float).

(** A world where the search returns both hits and the model answers. *)
Definition ext_answering : Externals :=
  mkExternals
    (Some (fun _ _ => SearchResults [hit_relevant; hit_irrelevant]))
    (fun _ => CompletionText "Cupid Limited makes consumer goods.")
    "7d9f0c1e-0000-4000-8000-000000000001"
    "2024-01-01T10:00:00" "2024-01-01T10:00:02".

(** A world where the call to the model raises. *)
Definition ext_failing : Externals :=
  mkExternals
    (Some (fun _ _ => SearchResults [hit_relevant; hit_irrelevant]))
    (fun _ => CompletionRaises "Connection timed out")
    "7d9f0c1e-0000-4000-8000-000000000002"
    "2024-01-01T11:00:00" "2024-01-01T11:00:02".

(** A request body that holds only a message. *)
Definition message_only (m : string) : Payload :=
  mkPayload (Some m) None None TopKMissing.

(** *** Turns recorded in a conversation *)

(** The query/answer pair of a section. *)
Definition qa (x : QASection) : string * string := (sec_query x, sec_answer x).

Definition is_role (r : Role) (m : Message) : bool := bool_decide (role m = r).

(** The answered turns of a message list: each user message immediately
    followed by an assistant message, with the two contents, in order. *)
Fixpoint turns (ms : list Message) : list (string * string) :=
  match ms with
  | [] => []
  | m :: tl =>
      match tl with
      | a :: _ =>
          if is_role user m && is_role assistant a
          then (content m, content a) :: turns tl
          else turns tl
      | [] => []
      end
  end.

(** The number of user messages that no assistant message follows
    immediately. *)
Fixpoint unanswered (ms : list Message) : nat :=
  match ms with
  | [] => 0
  | m :: tl =>
      (if is_role user m &&
          negb (match tl with a :: _ => is_role assistant a | [] => false end)
       then 1 else 0) + unanswered tl
  end.

(** Message and section lists that grew by whole turns (a user message,
    its assistant message and the section of the pair) and by user
    messages left without an answer. *)
Inductive recorded : list Message -> list QASection -> Prop :=
| recorded_nil : recorded [] []
| recorded_turn ms ss u a x :
    recorded ms ss ->
    role u = user -> role a = assistant -> qa x = (content u, content a) ->
    recorded (ms ++ [u; a]) (ss ++ [x])
| recorded_unanswered ms ss u :
    recorded ms ss -> role u = user -> recorded (ms ++ [u]) ss.

(** What a submit-message request that passed validation did to the
    conversation [before] it addressed, given the status of its
    response: a failed request (500) recorded the user message alone; a
    successful one (200) recorded the user message, the assistant
    message and the section of the pair. *)
Definition turn_effect (status : Z) (ms ms' : list Message)
    (ss ss' : list QASection) : Prop :=
  exists u, role u = user /\
    ((status = 500%Z /\ ms' = (ms ++ [u])%list /\ ss' = ss) \/
     (status = 200%Z /\ exists a x,
        role a = assistant /\ qa x = (content u, content a) /\
        ms' = (ms ++ [u; a])%list /\ ss' = (ss ++ [x])%list)).

(** *** Sequences of requests *)

(** The requests that change the multi-session store. *)
Inductive StoreRequest :=
| ReqChatSession (ext : Externals) (payload : Payload)
| ReqCreateSession (ext : Externals) (data_title : option string)
| ReqRenameSession (session_id : string) (data_title : option string).

Definition store_step (r : StoreRequest) (SESSIONS : gmap string Session)
  : Outcome (gmap string Session) :=
  match r with
  | ReqChatSession ext payload => chat_session ext payload SESSIONS
  | ReqCreateSession ext data_title => create_session_route ext data_title SESSIONS
  | ReqRenameSession session_id data_title => rename_session session_id data_title SESSIONS
  end.

(** The responses to a sequence of requests and the store it leaves. *)
Fixpoint run_store (reqs : list StoreRequest) (SESSIONS : gmap string Session)
  : list Response * gmap string Session :=
  match reqs with
  | [] => ([], SESSIONS)
  | r :: rest =>
      let o := store_step r SESSIONS in
      let '(responses, final) := run_store rest (state o) in
      (response o :: responses, final)
  end.

(** The requests that change the single ongoing conversation. *)
Inductive FlaskRequest :=
| ReqChat (ext : Externals) (payload : Payload)
| ReqResetHistory.

Definition flask_step (r : FlaskRequest) (session : FlaskSession) : Outcome FlaskSession :=
  match r with
  | ReqChat ext payload => chat ext payload session
  | ReqResetHistory => reset_history session
  end.

Fixpoint run_flask (reqs : list FlaskRequest) (session : FlaskSession)
  : list Response * FlaskSession :=
  match reqs with
  | [] => ([], session)
  | r :: rest =>
      let o := flask_step r session in
      let '(responses, final) := run_flask rest (state o) in
      (response o :: responses, final)
  end.

(** The count of the specification: a conversation holds twice as many
    messages as sections. *)
Definition twice_as_many_messages (SESSIONS : gmap string Session) : Prop :=
  forall sid s, SESSIONS !! sid = Some s ->
    length (messages s) = 2 * length (sections s).

(** A property of the message and section lists that holds of every
    stored conversation. *)
Definition all_sessions (P : list Message -> list QASection -> Prop)
    (SESSIONS : gmap string Session) : Prop :=
  forall sid s, SESSIONS !! sid = Some s -> P (messages s) (sections s).

(** The same for the Flask session: the keys ["history"] and ["sections"]
    are both missing, or the history is the seed message followed by
    messages that, with the sections, satisfy [P]. *)
Definition flask_session_holds (P : list Message -> list QASection -> Prop)
    (session : FlaskSession) : Prop :=
  match history session, flask_sections session with
  | Some h, Some ss => exists ms, h = seed_message :: ms /\ P ms ss
  | None, None => True
  | _, _ => False
  end.

(** Whole turns only: recorded, and no user message without answer. *)
Definition whole_turns (ms : list Message) (ss : list QASection) : Prop :=
  recorded ms ss /\ unanswered ms = 0.

(** A failed generation call for a first message, then the same message
    again. *)
Definition failing_then_answering : list StoreRequest :=
  [ReqChatSession ext_failing (message_only "Cupid Limited");
   ReqChatSession ext_answering
     (mkPayload (Some "Cupid Limited") None (Some (uuid4 ext_failing)) TopKMissing)].

(* ================================================================== *)
(** ** More of app.py: routes and notions beyond the five components *)
(* ================================================================== *)

(** The route [GET /sessions/<session_id>]. *)
Definition get_session (session_id : string) (SESSIONS : gmap string Session)
  : Outcome (gmap string Session) :=
  match SESSIONS !! session_id with
  | None => mkOutcome (RespError 404 "Session not found") SESSIONS []
  | Some s => mkOutcome (RespSession 200 s) SESSIONS []
  end.


(** The id that [uuid4] hands to a request that may create a conversation
    is not in use. *)
Definition creates_unused_id (r : StoreRequest) (SESSIONS : gmap string Session) : Prop :=
  match r with
  | ReqChatSession ext _ => SESSIONS !! uuid4 ext = None
  | ReqCreateSession ext _ => SESSIONS !! uuid4 ext = None
  | ReqRenameSession _ _ => True
  end.

(** The number of characters in the contents of a message list. *)
Definition total_chars (ms : list Message) : nat :=
  foldr (fun m n => String.length (content m) + n) 0 ms.

(** A topic that the normalisation of the Session Memory Builder leaves
    as it is. *)
Definition normalised (t : string) : Prop := Py.strip (Py.lower t) = t.

(** The messages of the completion calls in a call log. *)
Definition completion_prompts (log : list Call) : list (list Message) :=
  omap (fun c => match c with CallCompletion ms => Some ms | CallSearch _ _ => None end) log.

(** One of the three content fields of a hit holds text. *)
Definition hit_has_content (r : Hit) : bool :=
  existsb (fun v => bool_decide (is_Some (content_part v)))
    [hit_merged_content r; hit_content r; hit_imageCaption r].

(** The hit carries a score that reaches the relevance threshold. *)
Definition hit_scores_relevant (r : Hit) : bool :=
  match hit_search_score r with
  | Some s => PrimFloat.leb 0.35 s
  | None => false
  end.

(** A hit without score whose only text is an image caption, and a hit
    with a high score and no text. *)
Definition hit_unscored : Hit :=
  mkHit FieldNone FieldNone (FieldStr "Chart of revenue.")
    (Some "https://store/reports/chart.png") None None None None None None.

Definition hit_without_content : Hit :=
  mkHit FieldNone (FieldStr "") (FieldList [])
    None (Some "manual") (Some "doc-3") None None None (Some 0.8%float).



(** A request to [chat_session] for a new conversation, a long message. *)
Definition long_message : string :=
  "please compare the revenue of the two companies over the last five years".

(** Every request of a sequence that may create a conversation is handed
    an id that is not in use when the request arrives. *)
Fixpoint run_creates_unused_ids (reqs : list StoreRequest)
    (SESSIONS : gmap string Session) : Prop :=
  match reqs with
  | [] => True
  | r :: rest =>
      creates_unused_id r SESSIONS /\
      run_creates_unused_ids rest (state (store_step r SESSIONS))
  end.

(** A dialogue: no system message, and every assistant message directly
    after a user message. [after_user] tells whether the message before
    the list is a user message. *)
Fixpoint dialogue (after_user : bool) (ms : list Message) : bool :=
  match ms with
  | [] => true
  | m :: tl =>
      match role m with
      | user => dialogue true tl
      | assistant => after_user && dialogue false tl
      | system => false
      end
  end.

(** The three keys of the Flask session are all present or all missing. *)
Definition keys_together (session : FlaskSession) : Prop :=
  (history session = None /\ flask_sections session = None /\
   flask_current_topic session = None) \/
  (is_Some (history session) /\ is_Some (flask_sections session) /\
   is_Some (flask_current_topic session)).

(* ================================================================== *)
(** ** The document pipeline of the NSE scripts

    [download_pdfs.py] and [fetch_csv.py] read a table of announcements,
    download each attachment and store it in a blob container under a
    path built from the symbol, the year and the quarter;
    [cupid_financials_export.py] files results by calendar quarter. The
    HTTP session and the blob container are outside the program: a
    function takes the answer of [session.get] and returns the calls it
    makes on the blob client. Bytes are [Byte.byte]s. *)
(* ================================================================== *)

From Stdlib Require Import DecimalString DecimalNat.
From Stdlib Require Strings.Byte.

#[global] Instance byte_eq_dec : EqDecision Byte.byte := Byte.byte_eq_dec.

(** [str(n)] for an integer. *)
Definition str_of_int (n : Z) : string := NilZero.string_of_int (Z.to_int n).

(** [str(n)] for a natural number. *)
Definition str_of_nat (n : nat) : string := NilEmpty.string_of_uint (Nat.to_uint n).

(** A run of [k] characters ["0"]. *)
Fixpoint zeros (k : nat) : string :=
  match k with
  | 0 => ""
  | S k' => String "0" (zeros k')
  end.

(** [url.split("/")]: the pieces between the separators; [cur] is the
    piece being read. *)
Fixpoint split_runs (sep : ascii) (cur : string) (s : string) : list string :=
  match s with
  | EmptyString => [cur]
  | String c s' =>
      if Ascii.eqb c sep then cur :: split_runs sep "" s'
      else split_runs sep (cur ++ String c "") s'
  end.

Definition split (sep : ascii) (s : string) : list string := split_runs sep "" s.

(** [s.split("/")[-1]] *)
Definition last_segment (s : string) : string := default "" (last (split "/" s)).

(** The date fields that the scripts read from a [datetime]. *)
Record datetime := mkDatetime {
  dt_year : Z;
  dt_month : Z;
}.

(** One item of [r.iter_content(4096)]: a chunk, or the exception raised
    while reading the stream. *)
Inductive StreamItem :=
| Chunk (data : list Byte.byte)
| StreamRaises.

(** The outcome of [session.get(url, ..., stream=True)]. *)
Inductive GetOutcome :=
| GetRaises
| GetResponse (status_code : Z) (iter_content : list StreamItem).

(** [b"%PDF"] *)
Definition pdf_magic : list Byte.byte := [Byte.x25; Byte.x50; Byte.x44; Byte.x46].

(** The calls made on a blob client. *)
Inductive BlobCall :=
| StageBlock (block_id : string) (data : list Byte.byte)
| CommitBlockList (block_ids : list string) (content_type : string).

(** *** The blob service

    What a block blob holds after a sequence of calls, by the contract
    of the storage service: [stage_block] keeps the data under its block
    id (a later block with the same id replaces it), and
    [commit_block_list] makes the blob the concatenation of the staged
    blocks with the listed ids, in the order of the list; it fails when
    an id was not staged. *)
Definition staged_after (calls : list BlobCall) : gmap string (list Byte.byte) :=
  foldl (fun staged c =>
           match c with
           | StageBlock block_id data => <[block_id := data]> staged
           | CommitBlockList _ _ => staged
           end) ∅ calls.

Definition blob_after (calls : list BlobCall) : option (list Byte.byte) :=
  match last calls with
  | Some (CommitBlockList block_ids _) =>
      (fun chunks => List.concat chunks) <$>
        mapM (fun block_id => staged_after calls !! block_id) block_ids
  | _ => None
  end.

Module DownloadPdfs.

(** [get_quarter(dt)] *)
Definition get_quarter (dt : datetime) : string :=
  let m := dt_month dt in
  if ((4 <=? m) && (m <=? 6))%Z then "Q1"
  else if ((7 <=? m) && (m <=? 9))%Z then "Q2"
  else if ((10 <=? m) && (m <=? 12))%Z then "Q3"
  else "Q4".

(** [build_path(symbol, dt, filename)] *)
Definition build_path (symbol : string) (dt : datetime) (filename : string) : string :=
  let q := get_quarter dt in
  "documents/" ++ symbol ++ "/" ++ str_of_int (dt_year dt) ++ "/" ++ q ++ "/" ++ filename.

Definition max_size : Z := 60 * 1024 * 1024.

(** The loop [for chunk in r.iter_content(4096)] of [download_pdf] with
    [data] the bytes read so far: [Some] is the byte array when the loop
    ends, [None] a [return None] inside the loop or its [except]. *)
Fixpoint read_stream (data : list Byte.byte) (stream : list StreamItem)
  : option (list Byte.byte) :=
  match stream with
  | [] => Some data
  | StreamRaises :: _ => None
  | Chunk chunk :: rest =>
      match chunk with
      | [] => Some data
      | _ =>
          let data := (data ++ chunk)%list in
          if (Z.of_nat (length data) >? max_size)%Z then None
          else read_stream data rest
      end
  end.

(** [download_pdf(url)], given the outcome of [session.get]. *)
Definition download_pdf (get : string -> GetOutcome) (url : string)
  : option (list Byte.byte) :=
  match get url with
  | GetRaises => None
  | GetResponse status_code iter_content =>
      if negb (status_code =? 200)%Z then None
      else
        match read_stream [] iter_content with
        | None => None
        | Some data =>
            if negb (bool_decide (take 4 data = pdf_magic)) then None
            else Some data
        end
  end.

Definition BLOCK_SIZE : Z := 4 * 1024 * 1024.

(** [f"block-{index:05}"]: the index in decimal, padded with zeros on
    the left to five digits. *)
Definition block_id_of (index : nat) : string :=
  let digits := str_of_nat index in
  "block-" ++ zeros (5 - String.length digits) ++ digits.

(** The loop [for i in range(0, len(data), BLOCK_SIZE)] of
    [upload_large_pdf] from the position [i] with the counter [index]:
    the blocks it stages, in order. [fuel] bounds the number of
    iterations. *)
Fixpoint stage_blocks (fuel : nat) (block_size : nat) (i index : nat)
    (data : list Byte.byte) : list (string * list Byte.byte) :=
  match fuel with
  | 0 => []
  | S fuel' =>
      if (i <? length data)%nat then
        let block_id := block_id_of index in
        let chunk := take block_size (drop i data) in
        (block_id, chunk) :: stage_blocks fuel' block_size (i + block_size) (S index) data
      else []
  end.

(** [upload_large_pdf(blob_client, data)]: the calls on the blob client,
    in order. One iteration per byte is more fuel than the loop needs. *)
Definition upload_large_pdf (data : list Byte.byte) : list BlobCall :=
  let blocks := stage_blocks (length data) (Z.to_nat BLOCK_SIZE) 0 0 data in
  (map (fun b => StageBlock b.1 b.2) blocks ++
   [CommitBlockList (map fst blocks) "application/pdf"])%list.

(** One row of the announcements table as [process] reads it with
    [row.get]: [None] is a missing column. *)
Record Row := mkRow {
  row_attchmntFile : option string;
  row_symbol : option string;
  row_exchdisstime : option string;
}.

(** What is outside [process]: the date parser of the library for the
    format [%d-%b-%Y %H:%M:%S] ([None] when it raises), the clock, the
    HTTP session, and whether the blob client raises during an upload to
    a path. *)
Record World := mkWorld {
  strptime : string -> option datetime;
  now : datetime;
  session_get : string -> GetOutcome;
  upload_raises : string -> bool;
}.

(** [parse_dt(s)] *)
Definition parse_dt (w : World) (s : string) : datetime :=
  default (now w) (strptime w s).

(** The body of [for _, row in df.iterrows()] in [process]: the blobs of
    the container and the URLs requested so far, before and after the
    row. *)
Definition process_row (w : World)
    (st : gmap string (list Byte.byte) * list string) (row : Row)
  : gmap string (list Byte.byte) * list string :=
  let '(blobs, requested) := st in
  let url := Py.strip (Py.or_empty (row_attchmntFile row)) in
  let symbol := default "UNKNOWN" (row_symbol row) in
  let dt := parse_dt w (default "" (row_exchdisstime row)) in
  if negb (Py.truthy url) then st
  else
    let filename := last_segment url in
    let blob_path := build_path symbol dt filename in
    if bool_decide (is_Some (blobs !! blob_path)) then st
    else
      let requested := (requested ++ [url])%list in
      match download_pdf (session_get w) url with
      | None | Some [] => (blobs, requested)
      | Some pdf =>
          if upload_raises w blob_path then (blobs, requested)
          else
            match blob_after (upload_large_pdf pdf) with
            | Some content => (<[blob_path := content]> blobs, requested)
            | None => (blobs, requested)
            end
      end.

(** [process(csv_bytes)] on the rows of the table. *)
Definition process (w : World) (rows : list Row)
    (st : gmap string (list Byte.byte) * list string)
  : gmap string (list Byte.byte) * list string :=
  foldl (process_row w) st rows.

End DownloadPdfs.

Module FetchCsv.

(** [is_pdf(data)] *)
Definition is_pdf (data : list Byte.byte) : bool :=
  bool_decide (take 4 data = pdf_magic).

(** [b"".join(chunk for chunk in r.iter_content(4096) if chunk)]: [None]
    when the stream raises. *)
Fixpoint join_chunks (stream : list StreamItem) : option (list Byte.byte) :=
  match stream with
  | [] => Some []
  | StreamRaises :: _ => None
  | Chunk chunk :: rest => (fun tl => chunk ++ tl)%list <$> join_chunks rest
  end.

(** The result of [download_pdf(url)] in [fetch_csv.py], which has no
    [try]: an exception of [session.get] or of the stream leaves the
    function. *)
Inductive Download :=
| Raised
| Returned (pdf : option (list Byte.byte)).

Definition download_pdf (get : string -> GetOutcome) (url : string) : Download :=
  match get url with
  | GetRaises => Raised
  | GetResponse status_code iter_content =>
      if negb (status_code =? 200)%Z then Returned None
      else
        match join_chunks iter_content with
        | None => Raised
        | Some data => if negb (is_pdf data) then Returned None else Returned (Some data)
        end
  end.

End FetchCsv.

Module FinancialsExport.

(** [quarter = (parsed.month - 1) // 3 + 1] in [process_data]. *)
Definition quarter (parsed : datetime) : Z := (dt_month parsed - 1) / 3 + 1.

End FinancialsExport.

(** The index written in a block id. *)
Definition block_index (block_id : string) : option nat :=
  Nat.of_uint <$> NilEmpty.uint_of_string (substring 6 (String.length block_id - 6) block_id).

(** The chunks of a stream up to its end, its first empty chunk or its
    first exception. *)
Fixpoint leading_chunks (stream : list StreamItem) : list (list Byte.byte) :=
  match stream with
  | Chunk (b :: chunk) :: rest => (b :: chunk) :: leading_chunks rest
  | _ => []
  end.

(** No character of [s] is [sep]. *)
Definition free_of (sep : ascii) (s : string) : Prop :=
  all_chars (fun c => negb (Ascii.eqb c sep)) s = true.

(** A stream without exception and without empty chunk. *)
Definition plain_stream (stream : list StreamItem) : Prop :=
  Forall (fun item => match item with Chunk (_ :: _) => True | _ => False end) stream.

(** A small PDF in two chunks. *)
Definition two_chunk_pdf : list StreamItem :=
  [Chunk [Byte.x25; Byte.x50]; Chunk [Byte.x44; Byte.x46; Byte.x2d; Byte.x31]].

(** A world that serves the small PDF for every URL, and a table with a
    blank row and two rows for the same document. *)
Definition world_serving : DownloadPdfs.World :=
  DownloadPdfs.mkWorld (fun _ => None) (mkDatetime 2024 5)
    (fun _ => GetResponse 200 two_chunk_pdf) (fun _ => false).

Definition sample_rows : list DownloadPdfs.Row :=
  [DownloadPdfs.mkRow (Some "  ") (Some "CUPID") None;
   DownloadPdfs.mkRow (Some "https://nse/files/a.pdf") (Some "CUPID") None;
   DownloadPdfs.mkRow (Some " https://nse/files/a.pdf ") (Some "CUPID") None].

(** The trimmed URL of a row and the blob path [process] builds for it. *)
Definition row_url (row : DownloadPdfs.Row) : string :=
  Py.strip (Py.or_empty (DownloadPdfs.row_attchmntFile row)).

Definition row_blob_path (w : DownloadPdfs.World) (row : DownloadPdfs.Row) : string :=
  DownloadPdfs.build_path (default "UNKNOWN" (DownloadPdfs.row_symbol row))
    (DownloadPdfs.parse_dt w (default "" (DownloadPdfs.row_exchdisstime row)))
    (last_segment (row_url row)).

(** The content that a row puts in the container when its blob does not
    exist yet: the downloaded document, when the download and the upload
    both go through. *)
Definition row_upload (w : DownloadPdfs.World) (row : DownloadPdfs.Row)
  : option (list Byte.byte) :=
  match DownloadPdfs.download_pdf (DownloadPdfs.session_get w) (row_url row) with
  | Some (b :: pdf) =>
      if DownloadPdfs.upload_raises w (row_blob_path w row) then None
      else blob_after (DownloadPdfs.upload_large_pdf (b :: pdf))
  | _ => None
  end.

(* ================================================================== *)
(** ** Facts about the built-ins *)
(* ================================================================== *)


Lemma truthy_false (s : string) : Py.truthy s = false <-> s = "".
Proof. destruct s; simpl; split; congruence. Qed.

Lemma truthy_true (s : string) : Py.truthy s = true <-> s <> "".
Proof. destruct s; simpl; split; congruence. Qed.

Lemma all_chars_app p (s t : string) :
  all_chars p (s ++ t) = all_chars p s && all_chars p t.
Proof.
  induction s as [|c s IH]; simpl; [reflexivity|].
  rewrite IH. apply andb_assoc.
Qed.

Lemma truthy_snoc (s : string) (c : ascii) : Py.truthy (s ++ String c "") = true.
Proof. destruct s; reflexivity. Qed.

Lemma lstrip_blank (s : string) : all_chars Py.isspace s = true -> Py.lstrip s = "".
Proof.
  induction s as [|c s IH]; simpl; [reflexivity|].
  intros [Hc Hs]%andb_true_iff. rewrite Hc. auto.
Qed.

Lemma strip_blank (s : string) : all_chars Py.isspace s = true -> Py.strip s = "".
Proof. intros H. unfold Py.strip. rewrite lstrip_blank; auto. Qed.


Lemma findall_runs_tokens (s cur : string) :
  all_chars Py.is_lower_alnum cur = true ->
  Forall is_token (Py.findall_runs cur s).
Proof.
  revert cur. induction s as [|c s IH]; intros cur Hcur; simpl.
  - destruct (Py.truthy cur) eqn:E; constructor; [|constructor].
    split; [by apply truthy_true|done].
  - destruct (Py.is_lower_alnum c) eqn:Ec.
    + apply IH. rewrite all_chars_app, Hcur. simpl. by rewrite Ec.
    + destruct (Py.truthy cur) eqn:E.
      * constructor; [split; [by apply truthy_true|done]|by apply IH].
      * by apply IH.
Qed.

Lemma findall_tokens (s : string) : Forall is_token (Py.findall_lower_alnum s).
Proof. by apply findall_runs_tokens. Qed.

Lemma str_take_length (n : nat) (s : string) :
  String.length (Py.str_take n s) = Nat.min n (String.length s).
Proof.
  revert s. induction n as [|n IH]; intros [|c s]; simpl; auto.
Qed.

Lemma str_take_all (n : nat) (s : string) :
  String.length s <= n -> Py.str_take n s = s.
Proof.
  revert s. induction n as [|n IH]; intros [|c s]; simpl; intros H; auto; try lia.
  f_equal. apply IH. lia.
Qed.

Lemma slice_index_le (i : Z) (n : nat) : Py.slice_index i n <= n.
Proof. unfold Py.slice_index. destruct (i <? 0)%Z eqn:E; lia. Qed.

Lemma slice_index_nonneg (i : Z) (n : nat) :
  (0 <= i)%Z -> Py.slice_index i n = Nat.min (Z.to_nat i) n.
Proof. intros H. unfold Py.slice_index. destruct (i <? 0)%Z eqn:E; lia. Qed.

(** [s[:stop]] for a bound that is not negative keeps at most [stop]
    characters. *)
Lemma str_upto_length (stop : Z) (s : string) :
  (0 <= stop)%Z -> (Z.of_nat (String.length (Py.str_upto stop s)) <= stop)%Z.
Proof.
  intros H. unfold Py.str_upto. rewrite str_take_length, slice_index_nonneg by done. lia.
Qed.



(** [l[-0:]] is the whole list. *)
Lemma list_from_zero {A} (l : list A) : Py.list_from (- 0) l = l.
Proof. reflexivity. Qed.

Lemma list_from_suffix {A} (start : Z) (l : list A) : Py.list_from start l `suffix_of` l.
Proof. unfold Py.list_from. apply suffix_drop. Qed.


Lemma filter_sublist {A} (f : A -> bool) (l : list A) : List.filter f l `sublist_of` l.
Proof.
  induction l as [|x l IH]; simpl; [constructor|].
  destruct (f x); by constructor.
Qed.

(* ================================================================== *)
(** ** Topic Tracker *)
(* ================================================================== *)

Lemma extract_topic_blank (user_msg : string) (last_topic : option string) :
  all_chars Py.isspace user_msg = true ->
  extract_topic user_msg last_topic = last_topic.
Proof.
  intros H. unfold extract_topic.
  destruct (negb (Py.truthy user_msg)); [reflexivity|].
  by rewrite (strip_blank _ H).
Qed.

(** The message with the answers of the two tests of lines 127 and 122:
    [extract_topic] once it is known to hold a token. *)
Lemma extract_topic_tokens (user_msg : string) (last_topic : option string)
    (tok : string) (rest : list string) :
  Py.findall_lower_alnum (Py.lower (Py.strip user_msg)) = tok :: rest ->
  extract_topic user_msg last_topic =
    if bool_decide (tok ∈ question_starts) then last_topic
    else if (length (tok :: rest) <=? 4)%nat then Some (Py.lower (Py.strip user_msg))
    else last_topic.
Proof.
  intros H. unfold extract_topic.
  destruct (Py.truthy user_msg) eqn:E; simpl.
  - by rewrite H.
  - apply truthy_false in E. subst user_msg. discriminate H.
Qed.

(** C2. The Topic Tracker follows the stated algorithm. With [text] the
    trimmed, lowercased message and [tokens] its maximal runs of
    [[a-z0-9]] (each token a non-empty run of such characters): an empty
    or whitespace-only message, or one without tokens, returns the
    previous topic; a first token in the fixed set of sixteen question
    words returns the previous topic; otherwise at most four tokens make
    [text] the new topic, and more than four return the previous topic.
    [extract_topic("Cupid Limited", "")] is ["cupid limited"] and
    [extract_topic("who is the owner", "cupid limited")] is
    ["cupid limited"]. *)
Theorem C2_extract_topic_algorithm (user_message : string) (previous_topic : option string) :
  let text := Py.lower (Py.strip user_message) in
  let tokens := Py.findall_lower_alnum text in
  Forall is_token tokens /\
  (user_message = "" \/ all_chars Py.isspace user_message = true \/ tokens = [] ->
   extract_topic user_message previous_topic = previous_topic) /\
  (forall tok rest, tokens = tok :: rest ->
     tok ∈ ({[ "who"; "what"; "which"; "when"; "where"; "why"; "how"; "give";
               "tell"; "show"; "explain"; "owner"; "ceo"; "chairman"; "md";
               "director" ]} : gset string) ->
     extract_topic user_message previous_topic = previous_topic) /\
  (forall tok rest, tokens = tok :: rest ->
     tok ∉ question_starts -> length tokens <= 4 ->
     extract_topic user_message previous_topic = Some text) /\
  (4 < length tokens ->
   extract_topic user_message previous_topic = previous_topic) /\
  extract_topic "Cupid Limited" (Some "") = Some "cupid limited" /\
  extract_topic "who is the owner" (Some "cupid limited") = Some "cupid limited".
Proof.
  intros text tokens. split; [apply findall_tokens|].
  split.
  { intros [-> | [H | H]]; [reflexivity|by apply extract_topic_blank|].
    unfold extract_topic. fold text. fold tokens. rewrite H.
    by destruct (negb _). }
  split.
  { intros tok rest Htok Hin.
    rewrite (extract_topic_tokens _ _ _ _ Htok).
    rewrite bool_decide_eq_true_2; [reflexivity|exact Hin]. }
  split.
  { intros tok rest Htok Hnotin Hlen.
    rewrite (extract_topic_tokens _ _ _ _ Htok).
    rewrite bool_decide_eq_false_2 by exact Hnotin.
    rewrite Htok in Hlen. apply Nat.leb_le in Hlen. by rewrite Hlen. }
  split.
  { intros Hlen. destruct tokens as [|tok rest] eqn:Htok; [simpl in Hlen; lia|].
    rewrite (extract_topic_tokens _ _ _ _ Htok).
    destruct (bool_decide _); [reflexivity|].
    apply Nat.leb_gt in Hlen. by rewrite Hlen. }
  split; vm_compute; reflexivity.
Qed.

(** The short company name of the specification's scenario is taken as
    the new topic whatever the previous one was. *)
Lemma C2_extract_topic_witness :
  extract_topic "Tata Motors" (Some "cupid limited") = Some "tata motors" /\
  extract_topic "   " (Some "cupid limited") = Some "cupid limited" /\
  extract_topic "give the ceo name" (Some "tata motors") = Some "tata motors" /\
  extract_topic "please compare the two companies now" (Some "tata motors")
    = Some "tata motors".
Proof.
  split; [|split; [|split]].
  - apply (proj1 (proj2 (proj2 (proj2
      (C2_extract_topic_algorithm "Tata Motors" (Some "cupid limited")))))
      "tata" ["motors"]).
    + reflexivity.
    + vm_compute. intros H. discriminate H.
    + simpl. lia.
  - apply (proj1 (proj2 (C2_extract_topic_algorithm "   " (Some "cupid limited")))).
    right. left. reflexivity.
  - apply (proj1 (proj2 (proj2
      (C2_extract_topic_algorithm "give the ceo name" (Some "tata motors"))))
      "give" ["the"; "ceo"; "name"]).
    + reflexivity.
    + vm_compute. reflexivity.
  - apply (proj1 (proj2 (proj2 (proj2 (proj2
      (C2_extract_topic_algorithm "please compare the two companies now"
         (Some "tata motors"))))))).
    vm_compute. lia.
Defined.

(* ================================================================== *)
(** ** Prompt Assembler and Retrieval Gate *)
(* ================================================================== *)

Lemma build_hybrid_messages_shape (user_msg : string) (retrieved_docs : list Doc)
    (extra : option (list Message)) :
  build_hybrid_messages user_msg retrieved_docs extra =
    (msg system system_prompt :: default [] extra ++
     [msg system ("Context:" ++ Py.nl ++ context_text_of retrieved_docs);
      msg user user_msg])%list.
Proof.
  unfold build_hybrid_messages.
  destruct extra as [[|m ms]|]; simpl; try reflexivity.
  by rewrite <- app_assoc.
Qed.

(** C3. The Prompt Assembler emits, in this order: the persona system
    message; the session-memory system message, only when a memory text
    is present and not empty; one system message labelled [Context:],
    also when the context text is empty; the user message with the raw
    user text. Nothing but the memory message is conditional, and exactly
    one message of the sequence is a [Context:]-labelled system
    message. *)
Theorem C3_prompt_order (user_message : string) (retrieved_docs : list Doc)
    (memory_text : option string) :
  let persona := msg system system_prompt in
  let memory :=
    match memory_text with
    | Some (String c m) => [msg system (memory_label ++ String c m)]
    | _ => []
    end in
  let context := msg system ("Context:" ++ Py.nl ++ context_text_of retrieved_docs) in
  prompt_messages user_message retrieved_docs memory_text =
    ([persona] ++ memory ++ [context] ++ [msg user user_message])%list /\
  length (List.filter is_context_message
            (prompt_messages user_message retrieved_docs memory_text)) = 1 /\
  prompt_messages user_message [] memory_text =
    ([persona] ++ memory ++ [msg system ("Context:" ++ Py.nl)] ++ [msg user user_message])%list.
Proof.
  intros persona memory context.
  assert (Hshape : forall docs,
    prompt_messages user_message docs memory_text =
      ([persona] ++ memory ++
       [msg system ("Context:" ++ Py.nl ++ context_text_of docs)] ++
       [msg user user_message])%list).
  { intros docs. unfold prompt_messages. rewrite build_hybrid_messages_shape.
    destruct memory_text as [[|c m]|]; reflexivity. }
  split; [apply Hshape|]. split; [|apply (Hshape [])].
  rewrite Hshape. subst persona memory context.
  destruct memory_text as [[|c m]|]; reflexivity.
Qed.

Lemma context_text_of_unfold (docs : list Doc) :
  context_text_of docs =
    Py.str_upto context_limit
      (Py.join (Py.nl ++ Py.nl)
         (map context_chunk
            (List.filter (fun r => Py.truthy (text r)) (List.filter is_relevant docs)))).
Proof.
  unfold context_text_of. by destruct (List.filter is_relevant docs).
Qed.

(** C4. The Retrieval Gate keeps exactly the documents whose score is at
    least 0.35, in their original order; the kept documents with a
    non-empty text are rendered as [Source: <source-or-id>], a newline
    and the text, joined by blank lines and cut at 6000 characters. With
    no document above the threshold, and on the empty list, the context
    is the empty string. A document at 0.35 is kept and one at 0.34 is
    dropped. *)
Theorem C4_retrieval_gate (retrieved_docs : list Doc) :
  let kept := List.filter is_relevant retrieved_docs in
  (forall r, r ∈ kept <-> r ∈ retrieved_docs /\ PrimFloat.leb 0.35 (score r) = true) /\
  kept `sublist_of` retrieved_docs /\
  context_text_of retrieved_docs =
    Py.str_upto 6000
      (Py.join (Py.nl ++ Py.nl)
         (map (fun r => "Source: " ++ meta_get_source_fmt (meta r) (doc_id r)
                          ++ Py.nl ++ text r)
            (List.filter (fun r => Py.truthy (text r)) kept))) /\
  (Z.of_nat (String.length (context_text_of retrieved_docs)) <= 6000)%Z /\
  (kept = [] -> context_text_of retrieved_docs = "") /\
  context_text_of [] = "" /\
  is_relevant doc_at_threshold = true /\
  is_relevant doc_below_threshold = false /\
  context_text_of [doc_at_threshold; doc_below_threshold] =
    "Source: reports/a.pdf" ++ Py.nl ++ "Revenue grew.".
Proof.
  intros kept. split.
  { intros r. subst kept. rewrite !list_elem_of_In, filter_In. reflexivity. }
  split; [apply filter_sublist|].
  split; [apply context_text_of_unfold|].
  split.
  { rewrite context_text_of_unfold. apply str_upto_length. unfold context_limit. lia. }
  split.
  { intros H. unfold context_text_of. fold kept. by rewrite H. }
  repeat split; vm_compute; reflexivity.
Qed.

(** A retrieval that returns only a document below the threshold leaves
    the context empty. *)
Lemma C4_retrieval_gate_witness : context_text_of [doc_below_threshold] = "".
Proof.
  apply (proj1 (proj2 (proj2 (proj2 (proj2
    (C4_retrieval_gate [doc_below_threshold])))))).
  vm_compute. reflexivity.
Defined.

(* ================================================================== *)
(** ** Session Memory Builder *)
(* ================================================================== *)








(** *** The builder on list objects *)






Lemma build_session_memory_sections_empty (current_topic : option string)
    (limit max_chars : Z) :
  build_session_memory_sections [] current_topic limit max_chars = "".
Proof. reflexivity. Qed.




(* ================================================================== *)
(** ** Request handlers *)
(* ================================================================== *)

Lemma blank_strip (m : option string) :
  blank m -> Py.truthy (Py.strip (Py.or_empty m)) = false.
Proof.
  destruct m as [s|]; simpl; intros H; [|reflexivity].
  by rewrite strip_blank.
Qed.

(** C8. A submit-message request (single or multi-session) whose message
    is missing, empty or whitespace only, and a one-shot query whose text
    is, gets the validation error with status 400; no call to the search
    service or to the language model is made and the stored state is the
    one before the request. *)
Theorem C8_blank_message_rejected (strip_markdown : string -> string)
    (ext : Externals) (payload : Payload) (session : FlaskSession)
    (SESSIONS : gmap string Session) :
  (blank (p_message payload) ->
   chat ext payload session = mkOutcome (RespError 400 "Empty message") session [] /\
   chat_session ext payload SESSIONS =
     mkOutcome (RespError 400 "Empty message") SESSIONS []) /\
  (blank (p_q payload) ->
   query strip_markdown ext payload = mkOutcome (RespError 400 "Empty query") tt []).
Proof.
  split.
  - intros H. apply blank_strip in H. unfold chat, chat_session. by rewrite H.
  - intros H. apply blank_strip in H. unfold query. by rewrite H.
Qed.

(** A body with a whitespace-only message, and one without any text, in
    a world whose model would answer. *)
Lemma C8_blank_message_witness :
  chat ext_answering (message_only "  ") new_flask_session =
    mkOutcome (RespError 400 "Empty message") new_flask_session [] /\
  query (fun s => s) ext_answering (message_only "hello") =
    mkOutcome (RespError 400 "Empty query") tt [].
Proof.
  split.
  - apply (proj1 (C8_blank_message_rejected (fun s => s) ext_answering
                    (message_only "  ") new_flask_session ∅)).
    reflexivity.
  - apply (proj2 (C8_blank_message_rejected (fun s => s) ext_answering
                    (message_only "hello") new_flask_session ∅)).
    exact I.
Defined.

(** C7. After [reset_history] the session holds none of the three keys,
    which is the state a conversation starts in; read through the first
    lines of [chat], that state is a history of exactly one message, the
    seed system message, an empty list of sections and an empty topic.
    The next message is handled as the first message of a new visitor. *)
Theorem C7_reset_history_initial (session : FlaskSession) :
  let after := state (reset_history session) in
  response (reset_history session) = RespCleared /\
  calls (reset_history session) = [] /\
  after = new_flask_session /\
  history (ensure_keys after) = Some [seed_message] /\
  role seed_message = system /\
  flask_sections (ensure_keys after) = Some [] /\
  flask_current_topic (ensure_keys after) = Some "" /\
  forall ext payload, chat ext payload after = chat ext payload new_flask_session.
Proof.
  repeat split.
Qed.

(** Citations of the retrieved documents, by position. *)
Lemma citations_lookup (retrieved : list Doc) (i : nat) (r : Doc) :
  retrieved !! i = Some r ->
  map citation retrieved !! i =
    Some {| c_doc_id := doc_id r; c_source := meta_get_source (meta r);
            c_score := score r |}.
Proof.
  intros H. change (map citation retrieved) with (citation <$> retrieved).
  by rewrite list_lookup_fmap, H.
Qed.

(** C9. The sources of a successful submit-message response, on either
    route, are the citations [{doc_id, source, score}] of all documents
    the retrieval call returned, in retrieval order, whatever their
    score: a document below the relevance threshold, which is kept out
    of the Context block, is cited too. *)
Theorem C9_sources_cite_every_retrieved (ext : Externals) (payload : Payload)
    (session : FlaskSession) (SESSIONS : gmap string Session) :
  let user_msg := Py.strip (Py.or_empty (p_message payload)) in
  let cites (sources : list Citation) :=
    exists top_k,
      int_top_k (p_top_k payload) = inl top_k /\
      let retrieved := (search_azure ext user_msg top_k).1 in
      sources = map citation retrieved /\
      length sources = length retrieved /\
      (forall i r, retrieved !! i = Some r ->
         sources !! i = Some {| c_doc_id := doc_id r;
                                c_source := meta_get_source (meta r);
                                c_score := score r |}) /\
      (forall r, r ∈ retrieved -> is_relevant r = false -> citation r ∈ sources) in
  (forall id ai_msg sources,
     response (chat ext payload session) = RespChat id ai_msg sources -> cites sources) /\
  (forall sid ai_msg sources,
     response (chat_session ext payload SESSIONS) = RespChatSession sid ai_msg sources ->
     cites sources).
Proof.
  intros user_msg cites.
  assert (Hcites : forall top_k, int_top_k (p_top_k payload) = inl top_k ->
            cites (map citation (search_azure ext user_msg top_k).1)).
  { intros top_k Hk. exists top_k. split; [exact Hk|]. cbv zeta.
    split; [reflexivity|]. split; [by rewrite length_map|].
    split; [intros i r; apply citations_lookup|].
    intros r Hr _. apply list_elem_of_In, in_map, list_elem_of_In, Hr. }
  split.
  - intros id ai_msg sources. unfold chat. fold user_msg.
    destruct (negb (Py.truthy user_msg)); [discriminate|]. cbv zeta.
    destruct (int_top_k (p_top_k payload)) as [top_k|err] eqn:Hk; [|discriminate].
    specialize (Hcites top_k eq_refl).
    destruct (search_azure ext user_msg top_k) as [retrieved search_calls].
    destruct (completions_create ext _); [|discriminate].
    simpl. intros [= _ _ <-]. exact Hcites.
  - intros sid ai_msg sources. unfold chat_session. fold user_msg.
    destruct (negb (Py.truthy user_msg)); [discriminate|].
    destruct (ensure_session ext (p_session_id payload) SESSIONS) as [[s key] SESSIONS'].
    cbv zeta.
    destruct (int_top_k (p_top_k payload)) as [top_k|err] eqn:Hk; [|discriminate].
    specialize (Hcites top_k eq_refl).
    destruct (search_azure ext user_msg top_k) as [retrieved search_calls].
    destruct (completions_create ext _); [|discriminate].
    simpl. intros [= _ _ <-]. exact Hcites.
Qed.

(** One request in the answering world: both hits are cited, the one
    scored 0.1 included. *)
Lemma C9_sources_witness :
  exists top_k,
    int_top_k TopKMissing = inl top_k /\
    let retrieved := (search_azure ext_answering "Cupid Limited" top_k).1 in
    map citation (map hit_to_doc [hit_relevant; hit_irrelevant]) = map citation retrieved /\
    length (map citation (map hit_to_doc [hit_relevant; hit_irrelevant])) = length retrieved /\
    (forall i r, retrieved !! i = Some r ->
       map citation (map hit_to_doc [hit_relevant; hit_irrelevant]) !! i =
         Some {| c_doc_id := doc_id r; c_source := meta_get_source (meta r);
                 c_score := score r |}) /\
    (forall r, r ∈ retrieved -> is_relevant r = false ->
       citation r ∈ map citation (map hit_to_doc [hit_relevant; hit_irrelevant])).
Proof.
  exact (proj1 (C9_sources_cite_every_retrieved ext_answering
                  (message_only "Cupid Limited") new_flask_session ∅)
           (uuid4 ext_answering) "Cupid Limited makes consumer goods."
           (map citation (map hit_to_doc [hit_relevant; hit_irrelevant]))
           eq_refl).
Defined.

(* ================================================================== *)
(** ** Conversation Store: turns and sections *)
(* ================================================================== *)

Lemma turns_app (ms rest : list Message) (x : Message) :
  role x <> assistant ->
  turns (ms ++ x :: rest) = (turns ms ++ turns (x :: rest))%list.
Proof.
  intros Hx. induction ms as [|m tl IH]; [reflexivity|].
  destruct tl as [|b tl'].
  - change (turns ([m] ++ x :: rest)) with
      (if is_role user m && is_role assistant x
       then (content m, content x) :: turns (x :: rest) else turns (x :: rest)).
    unfold is_role at 2. rewrite bool_decide_eq_false_2 by exact Hx.
    by rewrite andb_false_r.
  - change (turns ((m :: b :: tl') ++ x :: rest)) with
      (if is_role user m && is_role assistant b
       then (content m, content b) :: turns ((b :: tl') ++ x :: rest)
       else turns ((b :: tl') ++ x :: rest)).
    change (turns (m :: b :: tl')) with
      (if is_role user m && is_role assistant b
       then (content m, content b) :: turns (b :: tl')
       else turns (b :: tl')).
    rewrite IH. by destruct (is_role user m && is_role assistant b).
Qed.

Lemma unanswered_app (ms rest : list Message) (x : Message) :
  role x <> assistant ->
  unanswered (ms ++ x :: rest) = unanswered ms + unanswered (x :: rest).
Proof.
  intros Hx. induction ms as [|m tl IH]; [reflexivity|].
  destruct tl as [|b tl'].
  - simpl. unfold is_role at 2. rewrite (bool_decide_eq_false_2 _ Hx). simpl. lia.
  - change (unanswered ((m :: b :: tl') ++ x :: rest)) with
      ((if is_role user m && negb (is_role assistant b) then 1 else 0)
       + unanswered ((b :: tl') ++ x :: rest)).
    change (unanswered (m :: b :: tl')) with
      ((if is_role user m && negb (is_role assistant b) then 1 else 0)
       + unanswered (b :: tl')).
    rewrite IH. lia.
Qed.

Lemma user_not_assistant (u : Message) : role u = user -> role u <> assistant.
Proof. intros -> . discriminate. Qed.

Lemma turns_snoc_turn (ms : list Message) (u a : Message) :
  role u = user -> role a = assistant ->
  turns (ms ++ [u; a]) = (turns ms ++ [(content u, content a)])%list.
Proof.
  intros Hu Ha. rewrite turns_app by by apply user_not_assistant.
  simpl. unfold is_role. by rewrite !bool_decide_eq_true_2.
Qed.

Lemma turns_snoc_user (ms : list Message) (u : Message) :
  role u = user -> turns (ms ++ [u]) = turns ms.
Proof.
  intros Hu. rewrite turns_app by by apply user_not_assistant.
  simpl. by rewrite app_nil_r.
Qed.

Lemma unanswered_snoc_turn (ms : list Message) (u a : Message) :
  role u = user -> role a = assistant ->
  unanswered (ms ++ [u; a]) = unanswered ms.
Proof.
  intros Hu Ha. rewrite unanswered_app by by apply user_not_assistant.
  simpl. unfold is_role. rewrite (bool_decide_eq_true_2 _ Ha).
  rewrite (bool_decide_eq_false_2 (role a = user)) by (rewrite Ha; discriminate).
  rewrite andb_false_r. simpl. lia.
Qed.

Lemma unanswered_snoc_user (ms : list Message) (u : Message) :
  role u = user -> unanswered (ms ++ [u]) = S (unanswered ms).
Proof.
  intros Hu. rewrite unanswered_app by by apply user_not_assistant.
  simpl. unfold is_role. rewrite (bool_decide_eq_true_2 _ Hu). simpl. lia.
Qed.

(** What [recorded] says in terms of the two lists. *)
Lemma recorded_facts (ms : list Message) (ss : list QASection) :
  recorded ms ss ->
  map qa ss = turns ms /\
  length ms = 2 * length ss + unanswered ms.
Proof.
  induction 1 as [|ms ss u a x _ [IH1 IH2] Hu Ha Hx|ms ss u _ [IH1 IH2] Hu].
  - split; reflexivity.
  - split.
    + rewrite map_app, IH1, turns_snoc_turn by done. simpl. by rewrite Hx.
    + rewrite !length_app, unanswered_snoc_turn by done. simpl. lia.
  - split.
    + by rewrite turns_snoc_user.
    + rewrite length_app, unanswered_snoc_user by done. simpl. lia.
Qed.

Lemma turn_effect_recorded (status : Z) (ms ms' : list Message) (ss ss' : list QASection) :
  turn_effect status ms ms' ss ss' -> recorded ms ss -> recorded ms' ss'.
Proof.
  intros (u & Hu & [(_ & -> & ->)|(_ & a & x & Ha & Hx & -> & ->)]) Hrec.
  - by apply recorded_unanswered.
  - by apply recorded_turn.
Qed.

Lemma turn_effect_answered (status : Z) (ms ms' : list Message) (ss ss' : list QASection) :
  turn_effect status ms ms' ss ss' -> status <> 500%Z ->
  unanswered ms = 0 -> unanswered ms' = 0.
Proof.
  intros (u & Hu & [(-> & _)|(_ & a & x & Ha & Hx & -> & ->)]) Hok H0; [done|].
  by rewrite unanswered_snoc_turn.
Qed.

(** The conversation a request is processed in is a stored one, or a new
    one without messages and sections that is stored under its id. *)
Lemma ensure_session_cases (ext : Externals) (session_id : option string)
    (SESSIONS : gmap string Session) :
  let '(s, key, SESSIONS') := ensure_session ext session_id SESSIONS in
  (SESSIONS !! key = Some s /\ SESSIONS' = SESSIONS) \/
  (key = uuid4 ext /\
   s = mkSession (uuid4 ext) "New chat" (utcnow_created ext) [] [] "" /\
   SESSIONS' = <[key := s]> SESSIONS).
Proof.
  unfold ensure_session, create_session. simpl.
  destruct session_id as [sid|]; [|by right].
  destruct (Py.truthy sid); [|by right].
  destruct (SESSIONS !! sid) eqn:E; [by left|by right].
Qed.

(** One [chat_session] request: rejected without a trace, or processed
    in one conversation, whose lists grow as [turn_effect] says. *)
Lemma chat_session_cases (ext : Externals) (payload : Payload)
    (SESSIONS : gmap string Session) :
  let o := chat_session ext payload SESSIONS in
  o = mkOutcome (RespError 400 "Empty message") SESSIONS [] \/
  exists key s0 s1,
    state o = <[key := s1]> SESSIONS /\
    (SESSIONS !! key = Some s0 \/ (messages s0 = [] /\ sections s0 = [])) /\
    turn_effect (status_of (response o)) (messages s0) (messages s1)
      (sections s0) (sections s1).
Proof.
  unfold chat_session.
  set (user_msg := Py.strip (Py.or_empty (p_message payload))).
  destruct (negb (Py.truthy user_msg)); [by left|right].
  pose proof (ensure_session_cases ext (p_session_id payload) SESSIONS) as Hens.
  destruct (ensure_session ext (p_session_id payload) SESSIONS) as [[s key] SESSIONS'].
  assert (Hstore : forall s1, <[key := s1]> SESSIONS' = <[key := s1]> SESSIONS).
  { intros s1. destruct Hens as [[_ ->]|(_ & _ & ->)]; [done|]. apply insert_insert_eq. }
  assert (Horigin : SESSIONS !! key = Some s \/ (messages s = [] /\ sections s = [])).
  { destruct Hens as [[H _]|(_ & -> & _)]; [by left|by right]. }
  cbv zeta.
  destruct (int_top_k (p_top_k payload)) as [top_k|err].
  - destruct (search_azure ext user_msg top_k) as [retrieved search_calls].
    destruct (completions_create ext _) as [ai_msg|err]; simpl.
    + eexists key, s, _. rewrite Hstore. split; [reflexivity|]. split; [exact Horigin|].
      exists (msg_with_meta user user_msg). split; [reflexivity|]. right.
      split; [reflexivity|].
      exists (msg_with_meta assistant ai_msg),
             (mkSection (utcnow_section ext) user_msg ai_msg).
      simpl. rewrite <- app_assoc. done.
    + eexists key, s, _. rewrite Hstore. split; [reflexivity|]. split; [exact Horigin|].
      exists (msg_with_meta user user_msg). split; [reflexivity|]. left. done.
  - simpl. eexists key, s, _. rewrite Hstore. split; [reflexivity|].
    split; [exact Horigin|].
    exists (msg_with_meta user user_msg). split; [reflexivity|]. left. done.
Qed.

(** The same for one [chat] request on the Flask session. *)
Lemma chat_cases (ext : Externals) (payload : Payload) (session : FlaskSession) :
  let o := chat ext payload session in
  o = mkOutcome (RespError 400 "Empty message") session [] \/
  exists h1 ss1,
    history (state o) = Some h1 /\ flask_sections (state o) = Some ss1 /\
    turn_effect (status_of (response o))
      (default [seed_message] (history session)) h1
      (default [] (flask_sections session)) ss1.
Proof.
  unfold chat.
  set (user_msg := Py.strip (Py.or_empty (p_message payload))).
  destruct (negb (Py.truthy user_msg)); [by left|right].
  assert (Hh : default [] (history (ensure_keys session)) =
               default [seed_message] (history session))
    by (by destruct session as [[h|] [ss|] [t|]]).
  assert (Hs : default [] (flask_sections (ensure_keys session)) =
               default [] (flask_sections session))
    by (by destruct session as [[h|] [ss|] [t|]]).
  cbv zeta. rewrite Hh, Hs.
  destruct (int_top_k (p_top_k payload)) as [top_k|err].
  - destruct (search_azure ext user_msg top_k) as [retrieved search_calls].
    destruct (completions_create ext _) as [ai_msg|err]; simpl.
    + eexists _, _. split; [reflexivity|]. split; [reflexivity|].
      exists (msg user user_msg). split; [reflexivity|]. right.
      split; [reflexivity|].
      exists (msg assistant ai_msg), (mkSection (utcnow_section ext) user_msg ai_msg).
      simpl. rewrite <- app_assoc. done.
    + eexists _, _. split; [reflexivity|]. split; [reflexivity|].
      exists (msg user user_msg). split; [reflexivity|]. left. done.
  - simpl. eexists _, _. split; [reflexivity|]. split; [reflexivity|].
    exists (msg user user_msg). split; [reflexivity|]. left. done.
Qed.

(** *** Invariants of the stores under sequences of requests *)

Section StoreInvariant.

Variable P : list Message -> list QASection -> Prop.
Variable ok : Z -> Prop.
Hypothesis P_nil : P [] [].
Hypothesis P_turn : forall status ms ms' ss ss',
  ok status -> turn_effect status ms ms' ss ss' -> P ms ss -> P ms' ss'.

Lemma all_sessions_insert (SESSIONS : gmap string Session) (key : string) (s : Session) :
  all_sessions P SESSIONS -> P (messages s) (sections s) ->
  all_sessions P (<[key := s]> SESSIONS).
Proof.
  intros Hall Hs sid s'. rewrite lookup_insert. case_decide.
  - intros [= <-]. exact Hs.
  - apply Hall.
Qed.

Lemma store_step_invariant (r : StoreRequest) (SESSIONS : gmap string Session) :
  ok (status_of (response (store_step r SESSIONS))) ->
  all_sessions P SESSIONS -> all_sessions P (state (store_step r SESSIONS)).
Proof.
  intros Hok Hall. destruct r as [ext payload|ext data_title|session_id data_title]; simpl in *.
  - destruct (chat_session_cases ext payload SESSIONS)
      as [->|(key & s0 & s1 & -> & Horigin & Heff)]; [exact Hall|].
    apply all_sessions_insert; [exact Hall|].
    eapply P_turn; [exact Hok|exact Heff|].
    destruct Horigin as [H|[-> ->]]; [by eapply Hall|exact P_nil].
  - unfold create_session_route, create_session. simpl.
    apply all_sessions_insert; [exact Hall|exact P_nil].
  - unfold rename_session. destruct (SESSIONS !! session_id) as [s|] eqn:E; [|exact Hall].
    simpl. apply all_sessions_insert; [exact Hall|].
    destruct (Py.truthy _); simpl; by eapply Hall.
Qed.

Lemma run_store_invariant (reqs : list StoreRequest) (SESSIONS : gmap string Session) :
  Forall (fun r => ok (status_of r)) (run_store reqs SESSIONS).1 ->
  all_sessions P SESSIONS -> all_sessions P (run_store reqs SESSIONS).2.
Proof.
  revert SESSIONS. induction reqs as [|r reqs IH]; intros SESSIONS Hok Hall; [exact Hall|].
  simpl in *.
  destruct (run_store reqs (state (store_step r SESSIONS))) as [responses final] eqn:E.
  simpl in *. apply Forall_cons in Hok as [Hr Hrest].
  specialize (IH (state (store_step r SESSIONS))). rewrite E in IH.
  apply IH; [exact Hrest|]. by apply store_step_invariant.
Qed.

Lemma turn_effect_after_seed (status : Z) (m : Message) (ms h1 : list Message)
    (ss ss1 : list QASection) :
  turn_effect status (m :: ms) h1 ss ss1 ->
  exists ms1, h1 = m :: ms1 /\ turn_effect status ms ms1 ss ss1.
Proof.
  intros (u & Hu & [(Hst & -> & ->)|(Hst & a & x & Ha & Hx & -> & ->)]).
  - exists (ms ++ [u])%list. split; [reflexivity|]. exists u. split; [done|]. by left.
  - exists (ms ++ [u; a])%list. split; [reflexivity|]. exists u. split; [done|].
    right. split; [done|]. by exists a, x.
Qed.

Lemma flask_step_invariant (r : FlaskRequest) (session : FlaskSession) :
  ok (status_of (response (flask_step r session))) ->
  flask_session_holds P session -> flask_session_holds P (state (flask_step r session)).
Proof.
  intros Hok Hinv. destruct r as [ext payload|]; simpl in *; [|exact I].
  destruct (chat_cases ext payload session) as [->|(h1 & ss1 & Hh & Hs & Heff)];
    [exact Hinv|].
  unfold flask_session_holds in *. rewrite Hh, Hs.
  destruct (history session) as [h|], (flask_sections session) as [ss|];
    simpl in Heff; try done.
  - destruct Hinv as (ms & -> & HP).
    apply turn_effect_after_seed in Heff as (ms1 & -> & Heff).
    exists ms1. split; [reflexivity|]. by eapply P_turn.
  - apply turn_effect_after_seed in Heff as (ms1 & -> & Heff).
    exists ms1. split; [reflexivity|]. eapply P_turn; [exact Hok|exact Heff|exact P_nil].
Qed.

Lemma run_flask_invariant (reqs : list FlaskRequest) (session : FlaskSession) :
  Forall (fun r => ok (status_of r)) (run_flask reqs session).1 ->
  flask_session_holds P session -> flask_session_holds P (run_flask reqs session).2.
Proof.
  revert session. induction reqs as [|r reqs IH]; intros session Hok Hinv; [exact Hinv|].
  simpl in *.
  destruct (run_flask reqs (state (flask_step r session))) as [responses final] eqn:E.
  simpl in *. apply Forall_cons in Hok as [Hr Hrest].
  specialize (IH (state (flask_step r session))). rewrite E in IH.
  apply IH; [exact Hrest|]. by apply flask_step_invariant.
Qed.

End StoreInvariant.

Lemma Forall_any_status (responses : list Response) :
  Forall (fun r => (fun _ : Z => True) (status_of r)) responses.
Proof. by apply Forall_forall. Qed.

Lemma recorded_step (status : Z) (ms ms' : list Message) (ss ss' : list QASection) :
  True -> turn_effect status ms ms' ss ss' -> recorded ms ss -> recorded ms' ss'.
Proof. intros _. apply turn_effect_recorded. Qed.

Lemma whole_turns_step (status : Z) (ms ms' : list Message) (ss ss' : list QASection) :
  status <> 500%Z -> turn_effect status ms ms' ss ss' ->
  whole_turns ms ss -> whole_turns ms' ss'.
Proof.
  intros Hok Heff [Hrec H0]. split.
  - by eapply turn_effect_recorded.
  - by eapply turn_effect_answered.
Qed.

Lemma turns_after_seed (ms : list Message) : turns (seed_message :: ms) = turns ms.
Proof. by destruct ms. Qed.

Lemma unanswered_after_seed (ms : list Message) :
  unanswered (seed_message :: ms) = unanswered ms.
Proof. reflexivity. Qed.

(** C1, as the code has it. Appending a turn is not one transaction: a
    request that passes validation records its user message before
    retrieval and generation, and the message stays when the request
    fails afterwards (status 500); the assistant message and the section
    are recorded together, after a successful generation call only
    (status 200). After any sequence of requests on the multi-session
    store, started empty, the sections of every conversation are, in
    order, its user messages that an assistant message follows
    immediately, paired with that message, and the message count is twice
    the section count plus the number of user messages left without an
    answer; when no response of the sequence has status 500 the message
    count is twice the section count. The single ongoing conversation
    keeps the same discipline with the seed system message in front: its
    history holds one message more. *)
Theorem C1_sections_follow_answered_turns :
  (forall ext payload (SESSIONS : gmap string Session),
     let o := chat_session ext payload SESSIONS in
     o = mkOutcome (RespError 400 "Empty message") SESSIONS [] \/
     exists key s0 s1,
       state o = <[key := s1]> SESSIONS /\
       (SESSIONS !! key = Some s0 \/ (messages s0 = [] /\ sections s0 = [])) /\
       turn_effect (status_of (response o)) (messages s0) (messages s1)
         (sections s0) (sections s1)) /\
  (forall ext payload (session : FlaskSession),
     let o := chat ext payload session in
     o = mkOutcome (RespError 400 "Empty message") session [] \/
     exists h1 ss1,
       history (state o) = Some h1 /\ flask_sections (state o) = Some ss1 /\
       turn_effect (status_of (response o))
         (default [seed_message] (history session)) h1
         (default [] (flask_sections session)) ss1) /\
  (forall reqs sid s,
     (run_store reqs ∅).2 !! sid = Some s ->
     map qa (sections s) = turns (messages s) /\
     length (messages s) = 2 * length (sections s) + unanswered (messages s)) /\
  (forall reqs,
     Forall (fun r => status_of r <> 500%Z) (run_store reqs ∅).1 ->
     twice_as_many_messages (run_store reqs ∅).2) /\
  (forall reqs h,
     history (run_flask reqs new_flask_session).2 = Some h ->
     exists ss,
       flask_sections (run_flask reqs new_flask_session).2 = Some ss /\
       map qa ss = turns h /\
       length h = 1 + 2 * length ss + unanswered h).
Proof.
  split; [exact chat_session_cases|]. split; [exact chat_cases|].
  split; [|split].
  - intros reqs sid s Hs. apply recorded_facts.
    refine (run_store_invariant recorded (fun _ => True) recorded_nil recorded_step
              reqs ∅ (Forall_any_status _) _ sid s Hs).
    intros sid' s' H. by rewrite lookup_empty in H.
  - intros reqs Hok sid s Hs.
    assert (Hwhole : whole_turns (messages s) (sections s)).
    { refine (run_store_invariant whole_turns (fun st => st <> 500%Z) _ whole_turns_step
                reqs ∅ Hok _ sid s Hs).
      - split; [constructor|reflexivity].
      - intros sid' s' H. by rewrite lookup_empty in H. }
    destruct Hwhole as [Hrec H0]. apply recorded_facts in Hrec as [_ Hlen]. lia.
  - intros reqs h Hh.
    pose proof (run_flask_invariant recorded (fun _ => True) recorded_nil recorded_step
                  reqs new_flask_session (Forall_any_status _) I) as Hinv.
    unfold flask_session_holds in Hinv. rewrite Hh in Hinv.
    destruct (flask_sections (run_flask reqs new_flask_session).2) as [ss|]; [|done].
    destruct Hinv as (ms & -> & Hrec). exists ss. split; [reflexivity|].
    apply recorded_facts in Hrec as [Hqa Hlen].
    rewrite turns_after_seed, unanswered_after_seed. split; [exact Hqa|].
    simpl. lia.
Qed.

(** The conversation left by a failed first message followed by the same
    message answered: three messages, one section, one user message
    without answer. *)
Lemma C1_sections_follow_witness :
  exists s,
    (run_store failing_then_answering ∅).2 !! uuid4 ext_failing = Some s /\
    length (messages s) = 3 /\ length (sections s) = 1 /\
    map qa (sections s) = turns (messages s) /\
    length (messages s) = 2 * length (sections s) + unanswered (messages s).
Proof.
  eexists. split; [vm_compute; reflexivity|].
  split; [reflexivity|]. split; [reflexivity|].
  refine (proj1 (proj2 (proj2 C1_sections_follow_answered_turns))
            failing_then_answering (uuid4 ext_failing) _ _).
  vm_compute. reflexivity.
Defined.

(** C1 as stated fails: after one submit-message request whose generation
    call raises, the new conversation holds the user message and no
    section, one message against zero sections. *)
Lemma C1_failed_generation_leaves_user_message :
  (exists s,
     (run_store [ReqChatSession ext_failing (message_only "Cupid Limited")] ∅).2
       !! uuid4 ext_failing = Some s /\
     messages s = [msg_with_meta user "Cupid Limited"] /\ sections s = []) /\
  ~ twice_as_many_messages
      (run_store [ReqChatSession ext_failing (message_only "Cupid Limited")] ∅).2.
Proof.
  split.
  - eexists. split; [vm_compute; reflexivity|]. split; reflexivity.
  - intros H.
    specialize (H (uuid4 ext_failing)
      (mkSession (uuid4 ext_failing) "New chat" (utcnow_created ext_failing)
         [msg_with_meta user "Cupid Limited"] [] "cupid limited")).
    simpl in H. discriminate H. vm_compute. reflexivity.
Qed.

Lemma ensure_session_unknown (ext : Externals) (session_id : option string)
    (SESSIONS : gmap string Session) :
  unknown_session session_id SESSIONS ->
  ensure_session ext session_id SESSIONS =
    (mkSession (uuid4 ext) "New chat" (utcnow_created ext) [] [] "",
     uuid4 ext,
     <[uuid4 ext := mkSession (uuid4 ext) "New chat" (utcnow_created ext) [] [] ""]>
       SESSIONS).
Proof.
  unfold unknown_session, ensure_session, create_session. simpl.
  destruct session_id as [sid|]; [|done]. intros ->. by destruct (Py.truthy sid).
Qed.

(** C10, as the code has it. A multi-session submit-message request whose
    session id is absent or names no stored conversation never gets the
    Not-Found status. When its message is not blank, a conversation
    titled ["New chat"] is created under a new id and the message is
    processed in it: the user message is its first message and no other
    conversation changes. The new id is in the response when the request
    succeeds, together with the answer, and the conversation then holds
    the turn; a request that fails after validation gets an error
    response with status 500 that carries no conversation id, and leaves
    the new conversation with the user message alone. With a blank
    message the request is rejected and no conversation is created. *)
Theorem C10_unknown_session_starts_new_chat (ext : Externals) (payload : Payload)
    (SESSIONS : gmap string Session) :
  unknown_session (p_session_id payload) SESSIONS ->
  let user_msg := Py.strip (Py.or_empty (p_message payload)) in
  let o := chat_session ext payload SESSIONS in
  status_of (response o) <> 404%Z /\
  (user_msg = "" -> o = mkOutcome (RespError 400 "Empty message") SESSIONS []) /\
  (user_msg <> "" ->
   exists s,
     state o !! uuid4 ext = Some s /\
     sess_id s = uuid4 ext /\ title s = "New chat" /\ created s = utcnow_created ext /\
     head (messages s) = Some (msg_with_meta user user_msg) /\
     (forall sid, sid <> uuid4 ext -> state o !! sid = SESSIONS !! sid) /\
     ((exists ai_msg sources,
         response o = RespChatSession (uuid4 ext) ai_msg sources /\
         messages s = [msg_with_meta user user_msg; msg_with_meta assistant ai_msg] /\
         sections s = [mkSection (utcnow_section ext) user_msg ai_msg]) \/
      (exists err,
         response o = RespError 500 err /\
         messages s = [msg_with_meta user user_msg] /\ sections s = []))).
Proof.
  intros Hunknown user_msg o. subst o. unfold chat_session. fold user_msg.
  destruct (Py.truthy user_msg) eqn:Htruthy; simpl.
  2:{ apply truthy_false in Htruthy. split; [done|]. split; [done|]. by intros H. }
  apply truthy_true in Htruthy.
  rewrite (ensure_session_unknown ext _ _ Hunknown). cbv zeta.
  destruct (int_top_k (p_top_k payload)) as [top_k|err].
  - destruct (search_azure ext user_msg top_k) as [retrieved search_calls].
    destruct (completions_create ext _) as [ai_msg|err]; simpl.
    + split; [done|]. split; [done|]. intros _. eexists.
      split; [apply lookup_insert_eq|]. repeat (split; [reflexivity|]).
      split.
      { intros sid Hsid. by rewrite insert_insert_eq, lookup_insert_ne. }
      left. by eexists _, _.
    + split; [done|]. split; [done|]. intros _. eexists.
      split; [apply lookup_insert_eq|]. repeat (split; [reflexivity|]).
      split.
      { intros sid Hsid. by rewrite insert_insert_eq, lookup_insert_ne. }
      right. by eexists.
  - simpl. split; [done|]. split; [done|]. intros _. eexists.
    split; [apply lookup_insert_eq|]. repeat (split; [reflexivity|]).
    split.
    { intros sid Hsid. by rewrite insert_insert_eq, lookup_insert_ne. }
    right. by eexists.
Qed.

(** A first message without session id in the answering world: the
    response carries the id of the conversation it created. *)
Lemma C10_unknown_session_witness :
  unknown_session (p_session_id (message_only "Cupid Limited")) ∅ /\
  status_of (response (chat_session ext_answering (message_only "Cupid Limited") ∅))
    <> 404%Z.
Proof.
  split; [exact I|].
  exact (proj1 (C10_unknown_session_starts_new_chat ext_answering
                  (message_only "Cupid Limited") ∅ I)).
Defined.

(** C10 as stated fails when the generation call raises: the
    conversation is created and holds the message, but the response is
    the bare error with status 500 and returns no conversation id. *)
Lemma C10_failed_request_returns_no_id :
  unknown_session (p_session_id (message_only "Cupid Limited")) ∅ /\
  response (chat_session ext_failing (message_only "Cupid Limited") ∅)
    = RespError 500 "Connection timed out" /\
  (forall sid ai_msg sources,
     response (chat_session ext_failing (message_only "Cupid Limited") ∅)
       <> RespChatSession sid ai_msg sources) /\
  (exists s,
     state (chat_session ext_failing (message_only "Cupid Limited") ∅)
       !! uuid4 ext_failing = Some s /\
     title s = "New chat" /\ messages s = [msg_with_meta user "Cupid Limited"]).
Proof.
  split; [exact I|]. split; [vm_compute; reflexivity|]. split.
  - intros sid ai_msg sources. vm_compute. discriminate.
  - eexists. split; [vm_compute; reflexivity|]. split; reflexivity.
Qed.

(* ================================================================== *)
(** ** More of app.py *)
(* ================================================================== *)

(** *** The routes, step by step *)

(** [chat_session] on a message that passes validation, with the local
    variables of the handler named. *)
Lemma chat_session_run (ext : Externals) (payload : Payload)
    (SESSIONS : gmap string Session) :
  let user_msg := Py.strip (Py.or_empty (p_message payload)) in
  Py.truthy user_msg = true ->
  exists s0 key SESSIONS0,
    ensure_session ext (p_session_id payload) SESSIONS = (s0, key, SESSIONS0) /\
    let topic := extract_topic user_msg (Some (current_topic s0)) in
    let s1 := set_current_topic (Py.or_empty topic)
                (append_message (msg_with_meta user user_msg) s0) in
    let prompt k :=
      prompt_messages user_msg (search_azure ext user_msg k).1
        (Some (session_memory (sections s0) topic)) in
    let log k := ((search_azure ext user_msg k).2 ++ [CallCompletion (prompt k)])%list in
    match int_top_k (p_top_k payload) with
    | inr err =>
        chat_session ext payload SESSIONS =
          mkOutcome (RespError 500 err) (<[key := s1]> SESSIONS0) []
    | inl k =>
        match completions_create ext (prompt k) with
        | CompletionText ai_msg =>
            chat_session ext payload SESSIONS =
              mkOutcome
                (RespChatSession key ai_msg (map citation (search_azure ext user_msg k).1))
                (<[key := append_section (mkSection (utcnow_section ext) user_msg ai_msg)
                            (append_message (msg_with_meta assistant ai_msg) s1)]>
                   SESSIONS0)
                (log k)
        | CompletionRaises err =>
            chat_session ext payload SESSIONS =
              mkOutcome (RespError 500 err) (<[key := s1]> SESSIONS0) (log k)
        end
    end.
Proof.
  intros user_msg Htruthy. unfold chat_session. fold user_msg. rewrite Htruthy. simpl.
  destruct (ensure_session ext (p_session_id payload) SESSIONS) as [[s0 key] SESSIONS0].
  exists s0, key, SESSIONS0. split; [reflexivity|]. cbv zeta. unfold prompt_messages. simpl.
  destruct (int_top_k (p_top_k payload)) as [k|err]; [|reflexivity].
  destruct (search_azure ext user_msg k) as [retrieved search_calls]. simpl.
  by destruct (completions_create ext _).
Qed.

(** The same for [chat]. *)
Lemma chat_run (ext : Externals) (payload : Payload) (session : FlaskSession) :
  let user_msg := Py.strip (Py.or_empty (p_message payload)) in
  Py.truthy user_msg = true ->
  let history0 := default [seed_message] (history session) in
  let sections0 := default [] (flask_sections session) in
  let topic := extract_topic user_msg (Some (default "" (flask_current_topic session))) in
  let history1 := (history0 ++ [msg user user_msg])%list in
  let session1 := mkFlaskSession (Some history1) (Some sections0)
                    (Some (Py.or_empty topic)) in
  let prompt k :=
    prompt_messages user_msg (search_azure ext user_msg k).1
      (Some (session_memory sections0 topic)) in
  let log k := ((search_azure ext user_msg k).2 ++ [CallCompletion (prompt k)])%list in
  match int_top_k (p_top_k payload) with
  | inr err => chat ext payload session = mkOutcome (RespError 500 err) session1 []
  | inl k =>
      match completions_create ext (prompt k) with
      | CompletionText ai_msg =>
          chat ext payload session =
            mkOutcome
              (RespChat (uuid4 ext) ai_msg (map citation (search_azure ext user_msg k).1))
              (mkFlaskSession (Some (history1 ++ [msg assistant ai_msg])%list)
                 (Some (sections0 ++ [mkSection (utcnow_section ext) user_msg ai_msg])%list)
                 (Some (Py.or_empty topic)))
              (log k)
      | CompletionRaises err =>
          chat ext payload session =
            mkOutcome (RespChatError (uuid4 ext) ("Backend error: " ++ err) err)
              session1 (log k)
      end
  end.
Proof.
  intros user_msg Htruthy. unfold chat. fold user_msg. rewrite Htruthy. simpl.
  assert (Hh : default [] (history (ensure_keys session)) =
               default [seed_message] (history session))
    by (by destruct session as [[h|] [ss|] [t|]]).
  assert (Hs : default [] (flask_sections (ensure_keys session)) =
               default [] (flask_sections session))
    by (by destruct session as [[h|] [ss|] [t|]]).
  assert (Ht : default "" (flask_current_topic (ensure_keys session)) =
               default "" (flask_current_topic session))
    by (by destruct session as [[h|] [ss|] [t|]]).
  rewrite Hh, Hs, Ht. unfold prompt_messages. simpl.
  destruct (int_top_k (p_top_k payload)) as [k|err]; [|reflexivity].
  destruct (search_azure ext user_msg k) as [retrieved search_calls]. simpl.
  by destruct (completions_create ext _).
Qed.

(** The same for [query]. *)
Lemma query_run (strip_markdown : string -> string) (ext : Externals) (payload : Payload) :
  let q := Py.strip (Py.or_empty (p_q payload)) in
  Py.truthy q = true ->
  let prompt k := prompt_messages q (search_azure ext q k).1 None in
  let log k := ((search_azure ext q k).2 ++ [CallCompletion (prompt k)])%list in
  match int_top_k (p_top_k payload) with
  | inr err => query strip_markdown ext payload = mkOutcome (RespError 500 err) tt []
  | inl k =>
      match completions_create ext (prompt k) with
      | CompletionText ai_msg =>
          query strip_markdown ext payload =
            mkOutcome
              (RespQuery (strip_markdown ai_msg) (map citation (search_azure ext q k).1))
              tt (log k)
      | CompletionRaises err =>
          query strip_markdown ext payload = mkOutcome (RespError 500 err) tt (log k)
      end
  end.
Proof.
  intros q Htruthy. unfold query. fold q. rewrite Htruthy. simpl.
  unfold prompt_messages. simpl.
  destruct (int_top_k (p_top_k payload)) as [k|err]; [|reflexivity].
  destruct (search_azure ext q k) as [retrieved search_calls]. simpl.
  by destruct (completions_create ext _).
Qed.

(** *** search_azure *)

Lemma search_azure_docs (ext : Externals) (query_text : string) (top_k : Z) (d : Doc) :
  d ∈ (search_azure ext query_text top_k).1 -> exists r, d = hit_to_doc r.
Proof.
  unfold search_azure. destruct (search_client ext) as [client|]; simpl;
    [|by intros ?%elem_of_nil].
  destruct (negb (Py.truthy query_text)); simpl; [by intros ?%elem_of_nil|].
  destruct (client query_text top_k) as [|results]; simpl; [by intros ?%elem_of_nil|].
  intros Hd. apply list_elem_of_In, in_map_iff in Hd as (r & <- & _). by exists r.
Qed.

(** X1. A document that [search_azure] returns always has the key
    ["source"] in its metadata, so the label of its context chunk is the
    storage path or source of the hit, and the text [None] when the hit
    has neither: the document id is never used as the label. The label
    and the [source] of the citation of the document are the same
    value. *)
Theorem search_azure_chunk_label (ext : Externals) (query_text : string) (top_k : Z)
    (d : Doc) :
  d ∈ (search_azure ext query_text top_k).1 ->
  source (meta d) <> SourceMissing /\
  context_chunk d =
    "Source: " ++ default "None" (c_source (citation d)) ++ Py.nl ++ text d /\
  (forall r, d = hit_to_doc r ->
     c_source (citation d) = or_else (hit_metadata_storage_path r) (hit_source r)).
Proof.
  intros Hd. destruct (search_azure_docs _ _ _ _ Hd) as [r ->].
  unfold context_chunk, citation, meta_get_source_fmt, meta_get_source, hit_to_doc. simpl.
  split; [|split].
  - by destruct (or_else _ _).
  - by destruct (or_else _ _).
  - intros r' Hr'. apply (f_equal (fun d => source (meta d))) in Hr'. simpl in Hr'.
    destruct (or_else (hit_metadata_storage_path r) (hit_source r)),
             (or_else (hit_metadata_storage_path r') (hit_source r')); congruence.
Qed.

Lemma search_azure_chunk_label_witness :
  context_chunk (hit_to_doc hit_irrelevant) =
    "Source: None" ++ Py.nl ++ "Weather notes".
Proof.
  refine (proj1 (proj2 (search_azure_chunk_label ext_answering "cupid" 5
                          (hit_to_doc hit_irrelevant) _))).
  vm_compute. apply list_elem_of_In. right. left. reflexivity.
Defined.



Lemma content_part_truthy (v : FieldVal) (s : string) :
  content_part v = Some s -> Py.truthy s = true.
Proof.
  unfold content_part. destruct v as [|t|xs].
  - discriminate.
  - destruct (Py.truthy t) eqn:E; [by intros [= <-]|discriminate].
  - destruct (Py.truthy (Py.join " " xs)) eqn:E; [by intros [= <-]|discriminate].
Qed.

Lemma truthy_app_l (s t : string) : Py.truthy s = true -> Py.truthy (s ++ t) = true.
Proof. by destruct s. Qed.

(** The text of a document is empty exactly when the hit has no
    content. *)
Lemma hit_to_doc_text_truthy (r : Hit) :
  Py.truthy (text (hit_to_doc r)) = hit_has_content r.
Proof.
  unfold hit_to_doc, hit_has_content. simpl.
  pose proof (content_part_truthy (hit_merged_content r)) as H1.
  pose proof (content_part_truthy (hit_content r)) as H2.
  pose proof (content_part_truthy (hit_imageCaption r)) as H3.
  destruct (content_part (hit_merged_content r)) as [a|],
           (content_part (hit_content r)) as [b|],
           (content_part (hit_imageCaption r)) as [c|]; simpl;
    rewrite ?bool_decide_eq_true_2 by eauto;
    rewrite ?bool_decide_eq_false_2 by (by intros [? ?]); simpl;
    try reflexivity;
    try (apply truthy_app_l; eauto);
    eauto.
Qed.

(** X3. The hits that reach the Context block. Of the documents of a
    search result, the Retrieval Gate renders those whose hit carries a
    score of at least 0.35 and text in one of the fields
    [merged_content], [content] or [imageCaption]; a hit without score
    counts as scored 0.0 and is never rendered, and neither is a hit
    whose three fields are missing or empty, whatever its score. *)
Theorem context_hits (results : list Hit) :
  List.filter (fun d => Py.truthy (text d))
    (List.filter is_relevant (map hit_to_doc results)) =
    map hit_to_doc
      (List.filter (fun r => hit_scores_relevant r && hit_has_content r) results) /\
  context_text_of (map hit_to_doc results) =
    Py.str_upto 6000
      (Py.join (Py.nl ++ Py.nl)
         (map (fun r => context_chunk (hit_to_doc r))
            (List.filter (fun r => hit_scores_relevant r && hit_has_content r) results))) /\
  (forall r, hit_search_score r = None -> is_relevant (hit_to_doc r) = false) /\
  (forall r, hit_has_content r = false -> text (hit_to_doc r) = "").
Proof.
  assert (Hrel : forall r, is_relevant (hit_to_doc r) = hit_scores_relevant r).
  { intros r. unfold is_relevant, hit_scores_relevant, hit_to_doc. simpl.
    by destruct (hit_search_score r). }
  assert (Hfilter :
    List.filter (fun d => Py.truthy (text d))
      (List.filter is_relevant (map hit_to_doc results)) =
    map hit_to_doc
      (List.filter (fun r => hit_scores_relevant r && hit_has_content r) results)).
  { induction results as [|r results IH]; [reflexivity|].
    cbn [map List.filter]. rewrite Hrel.
    destruct (hit_scores_relevant r); cbn [andb map List.filter]; [|exact IH].
    rewrite hit_to_doc_text_truthy.
    destruct (hit_has_content r); cbn [map]; [|exact IH].
    by rewrite IH. }
  split; [exact Hfilter|]. split; [|split].
  - rewrite context_text_of_unfold, Hfilter, map_map. reflexivity.
  - intros r Hr. rewrite Hrel. unfold hit_scores_relevant. by rewrite Hr.
  - intros r Hr. apply truthy_false. by rewrite hit_to_doc_text_truthy.
Qed.

Lemma context_hits_witness :
  is_relevant (hit_to_doc hit_unscored) = false /\
  text (hit_to_doc hit_without_content) = "".
Proof.
  split.
  - apply (proj1 (proj2 (proj2 (context_hits [])))). reflexivity.
  - apply (proj2 (proj2 (proj2 (context_hits [])))). reflexivity.
Defined.

(** *** The three routes and the outside world *)

Lemma search_azure_log (ext : Externals) (query_text : string) (top_k : Z) :
  (search_azure ext query_text top_k).2 = [] \/
  (search_azure ext query_text top_k).2 = [CallSearch query_text top_k].
Proof.
  unfold search_azure. destruct (search_client ext) as [client|]; [|by left].
  destruct (negb (Py.truthy query_text)); [by left|].
  destruct (client query_text top_k); by right.
Qed.


Lemma completion_prompts_log (search_log : list Call) (q : string) (k : Z)
    (prompt : list Message) :
  search_log = [] \/ search_log = [CallSearch q k] ->
  completion_prompts (search_log ++ [CallCompletion prompt]) = [prompt].
Proof. by intros [->| ->]. Qed.





(** *** The size of the prompt *)

Lemma string_length_app (s t : string) :
  String.length (s ++ t) = String.length s + String.length t.
Proof. induction s as [|c s IH]; simpl; [reflexivity|]. by rewrite IH. Qed.

Lemma session_memory_length (sections : list QASection) (topic : option string) :
  (Z.of_nat (String.length (session_memory sections topic)) <= 1500)%Z.
Proof.
  unfold session_memory, build_session_memory_sections.
  destruct sections as [|x l]; [simpl; lia|].
  pose proof (str_upto_length default_max_chars
    (Py.join (Py.nl ++ Py.nl)
       (map section_block (kept_sections (x :: l) topic default_limit)))) as H.
  unfold default_max_chars in H. unfold render_sections, default_max_chars. lia.
Qed.

Lemma context_text_length (docs : list Doc) :
  (Z.of_nat (String.length (context_text_of docs)) <= 6000)%Z.
Proof.
  rewrite context_text_of_unfold.
  pose proof (str_upto_length context_limit
    (Py.join (Py.nl ++ Py.nl)
       (map context_chunk
          (List.filter (fun r => Py.truthy (text r)) (List.filter is_relevant docs))))) as H.
  unfold context_limit in *. lia.
Qed.

Lemma prompt_messages_bounded (user_msg : string) (docs : list Doc)
    (memory : option string) :
  (forall m, memory = Some m -> (Z.of_nat (String.length m) <= 1500)%Z) ->
  length (prompt_messages user_msg docs memory) <= 4 /\
  (Z.of_nat (total_chars (prompt_messages user_msg docs memory)) <=
   Z.of_nat (String.length user_msg) + 7948)%Z.
Proof.
  intros Hmem. unfold prompt_messages. rewrite build_hybrid_messages_shape.
  pose proof (context_text_length docs) as Hctx.
  generalize dependent (context_text_of docs). intros ctx Hctx.
  destruct memory as [m|]; simpl.
  - specialize (Hmem m eq_refl). unfold memory_messages.
    destruct (Py.truthy m); simpl; rewrite ?string_length_app; simpl; split; lia.
  - rewrite ?string_length_app. simpl. split; lia.
Qed.

(** X6. The prompt is bounded whatever the length of the conversation. On
    each of the three routes every prompt sent to the model holds at
    most four messages (the stored history is never sent), and the
    characters of their contents number at most the length of the
    trimmed request text plus 7948: 399 for the persona, 40 + 1500 for
    the labelled session memory and 9 + 6000 for the labelled
    context. *)
Theorem prompt_bounded (strip_markdown : string -> string)
    (ext : Externals) (payload : Payload) (session : FlaskSession)
    (SESSIONS : gmap string Session) :
  let bounded (text : string) (log : list Call) :=
    forall prompt, prompt ∈ completion_prompts log ->
      length prompt <= 4 /\
      (Z.of_nat (total_chars prompt) <= Z.of_nat (String.length text) + 7948)%Z in
  bounded (Py.strip (Py.or_empty (p_message payload))) (calls (chat ext payload session)) /\
  bounded (Py.strip (Py.or_empty (p_message payload)))
    (calls (chat_session ext payload SESSIONS)) /\
  bounded (Py.strip (Py.or_empty (p_q payload))) (calls (query strip_markdown ext payload)).
Proof.
  intros bounded. subst bounded. cbv beta.
  assert (Hlog : forall text k prompt p,
    p ∈ completion_prompts ((search_azure ext text k).2 ++ [CallCompletion prompt]) ->
    p = prompt).
  { intros text k prompt p.
    rewrite (completion_prompts_log _ text k) by apply search_azure_log.
    by intros ->%list_elem_of_singleton. }
  assert (Hnone : forall (p : list Message), p ∈ completion_prompts [] -> False)
    by (intros p H; by apply elem_of_nil in H).
  assert (Hmem : forall sections topic m,
    Some (session_memory sections topic) = Some m ->
    (Z.of_nat (String.length m) <= 1500)%Z).
  { intros sections topic m [= <-]. apply session_memory_length. }
  split; [|split]; intros p Hp.
  - destruct (Py.truthy (Py.strip (Py.or_empty (p_message payload)))) eqn:Hmsg.
    + pose proof (chat_run ext payload session Hmsg) as Hrun. cbv zeta in Hrun.
      destruct (int_top_k (p_top_k payload)) as [k|err].
      * destruct (completions_create ext _); rewrite Hrun in Hp; simpl in Hp;
          apply Hlog in Hp as ->; apply prompt_messages_bounded, Hmem.
      * rewrite Hrun in Hp. by apply Hnone in Hp.
    + unfold chat in Hp. rewrite Hmsg in Hp. by apply Hnone in Hp.
  - destruct (Py.truthy (Py.strip (Py.or_empty (p_message payload)))) eqn:Hmsg.
    + destruct (chat_session_run ext payload SESSIONS Hmsg)
        as (s0 & key & SESSIONS0 & _ & Hrun). cbv zeta in Hrun.
      destruct (int_top_k (p_top_k payload)) as [k|err].
      * destruct (completions_create ext _); rewrite Hrun in Hp; simpl in Hp;
          apply Hlog in Hp as ->; apply prompt_messages_bounded, Hmem.
      * rewrite Hrun in Hp. by apply Hnone in Hp.
    + unfold chat_session in Hp. rewrite Hmsg in Hp. by apply Hnone in Hp.
  - destruct (Py.truthy (Py.strip (Py.or_empty (p_q payload)))) eqn:Hq.
    + pose proof (query_run strip_markdown ext payload Hq) as Hrun. cbv zeta in Hrun.
      destruct (int_top_k (p_top_k payload)) as [k|err].
      * destruct (completions_create ext _); rewrite Hrun in Hp; simpl in Hp;
          apply Hlog in Hp as ->; by apply prompt_messages_bounded.
      * rewrite Hrun in Hp. by apply Hnone in Hp.
    + unfold query in Hp. rewrite Hq in Hp. by apply Hnone in Hp.
Qed.

Lemma prompt_bounded_witness :
  length (prompt_messages "Cupid Limited"
            (search_azure ext_answering "Cupid Limited" 5).1 (Some "")) <= 4.
Proof.
  refine (proj1 (proj1 (prompt_bounded (fun s => s) ext_answering
            (message_only "Cupid Limited") new_flask_session ∅) _ _)).
  vm_compute. apply list_elem_of_In. left. reflexivity.
Defined.

(** *** When the prompt carries a memory message *)

Lemma list_from_neg_nonempty {A} (limit : Z) (l : list A) :
  (0 <= limit)%Z -> l <> [] -> Py.list_from (- limit) l <> [].
Proof.
  intros Hlimit Hl Hnil. apply (f_equal length) in Hnil.
  unfold Py.list_from in Hnil. rewrite length_drop in Hnil. simpl in Hnil.
  assert (0 < length l) by (destruct l; [done|simpl; lia]).
  unfold Py.slice_index in Hnil. destruct (- limit <? 0)%Z eqn:E; lia.
Qed.

Lemma join_truthy (sep p : string) (ps : list string) :
  Py.truthy p = true -> Py.truthy (Py.join sep (p :: ps)) = true.
Proof.
  intros Hp. unfold Py.join. simpl. destruct ps; [exact Hp|]. by apply truthy_app_l.
Qed.

Lemma str_upto_truthy (stop : Z) (s : string) :
  (1 <= stop)%Z -> Py.truthy s = true -> Py.truthy (Py.str_upto stop s) = true.
Proof.
  intros Hstop Hs. destruct s as [|c s]; [discriminate|].
  unfold Py.str_upto. rewrite slice_index_nonneg by lia.
  destruct (Nat.min (Z.to_nat stop) (String.length (String c s))) eqn:E;
    [simpl in E; lia|reflexivity].
Qed.

Lemma kept_sections_nonempty (sections : list QASection) (topic : option string)
    (limit : Z) :
  (0 <= limit)%Z -> sections <> [] -> kept_sections sections topic limit <> [].
Proof.
  intros Hlimit Hne. unfold kept_sections.
  destruct (topic_filtered sections topic) as [|x l] eqn:E.
  - by apply list_from_neg_nonempty.
  - by apply list_from_neg_nonempty.
Qed.

(** X7. The memory text is empty only for a conversation without
    sections. For a limit that is not negative and a [max_chars] of at
    least 1, the Session Memory Builder returns the empty string exactly
    when there is no section; so, with the defaults the routes use, the
    prompt of a turn carries the session-memory message exactly when the
    conversation has at least one recorded section, whatever the
    topic. *)
Theorem memory_iff_sections (sections : list QASection) (topic : option string)
    (limit max_chars : Z) :
  (0 <= limit)%Z -> (1 <= max_chars)%Z ->
  (build_session_memory_sections sections topic limit max_chars = "" <-> sections = []) /\
  (memory_messages (session_memory sections topic) = [] <-> sections = []) /\
  (sections <> [] ->
   memory_messages (session_memory sections topic) =
     [msg system (memory_label ++ session_memory sections topic)]).
Proof.
  intros Hlimit Hmax.
  assert (Hgen : forall limit max_chars, (0 <= limit)%Z -> (1 <= max_chars)%Z ->
    sections <> [] ->
    Py.truthy (build_session_memory_sections sections topic limit max_chars) = true).
  { intros lim mc Hlim Hmc Hne. unfold build_session_memory_sections.
    destruct sections as [|x l] eqn:Es; [done|]. rewrite <- Es in *.
    unfold render_sections. apply str_upto_truthy; [exact Hmc|].
    pose proof (kept_sections_nonempty sections topic lim Hlim Hne) as Hkept.
    destruct (kept_sections sections topic lim) as [|y ys]; [done|].
    simpl map. by apply join_truthy. }
  assert (Hdef : sections <> [] -> Py.truthy (session_memory sections topic) = true).
  { intros Hne. apply Hgen; [unfold default_limit|unfold default_max_chars|]; done || lia. }
  split; [|split].
  - split.
    + intros Hempty. destruct sections as [|x l]; [done|].
      specialize (Hgen limit max_chars Hlimit Hmax ltac:(done)).
      rewrite Hempty in Hgen. discriminate.
    + by intros ->.
  - split.
    + intros Hnone. destruct sections as [|x l]; [done|].
      unfold memory_messages in Hnone. by rewrite Hdef in Hnone.
    + by intros ->.
  - intros Hne. unfold memory_messages. by rewrite Hdef.
Qed.

Lemma memory_iff_sections_witness :
  memory_messages (session_memory [section_cupid] (Some "tata motors")) =
    [msg system (memory_label ++ session_memory [section_cupid] (Some "tata motors"))].
Proof.
  apply (proj2 (proj2 (memory_iff_sections [section_cupid] (Some "tata motors")
                         5 1500 ltac:(lia) ltac:(lia)))).
  discriminate.
Defined.

(* ================================================================== *)
(** ** More on the Conversation Store *)
(* ================================================================== *)

(** *** Stored conversations only grow *)

Lemma store_step_append_only (r : StoreRequest) (SESSIONS : gmap string Session)
    (sid : string) (s0 : Session) :
  creates_unused_id r SESSIONS -> SESSIONS !! sid = Some s0 ->
  exists s1,
    state (store_step r SESSIONS) !! sid = Some s1 /\
    sess_id s1 = sess_id s0 /\ created s1 = created s0 /\
    messages s0 `prefix_of` messages s1 /\ sections s0 `prefix_of` sections s1.
Proof.
  intros Hfresh Hs0.
  assert (Hsame : exists s1, SESSIONS !! sid = Some s1 /\
            sess_id s1 = sess_id s0 /\ created s1 = created s0 /\
            messages s0 `prefix_of` messages s1 /\ sections s0 `prefix_of` sections s1)
    by (by exists s0).
  destruct r as [ext payload|ext data_title|session_id data_title]; simpl in *.
  - destruct (Py.truthy (Py.strip (Py.or_empty (p_message payload)))) eqn:Hmsg.
    2:{ unfold chat_session. by rewrite Hmsg. }
    destruct (chat_session_run ext payload SESSIONS Hmsg)
      as (s & key & SESSIONS0 & Hens & Hrun). cbv zeta in Hrun.
    pose proof (ensure_session_cases ext (p_session_id payload) SESSIONS) as Hcases.
    rewrite Hens in Hcases.
    assert (Hother : sid <> key -> SESSIONS0 !! sid = Some s0).
    { intros Hne. destruct Hcases as [[_ ->]|(_ & _ & ->)]; [done|].
      by rewrite lookup_insert_ne. }
    assert (Hkey : sid = key -> s = s0).
    { intros ->. destruct Hcases as [[H _]|(-> & _ & _)]; congruence. }
    assert (Hstate : forall s1,
      sess_id s1 = sess_id s -> created s1 = created s ->
      messages s `prefix_of` messages s1 -> sections s `prefix_of` sections s1 ->
      exists s2, <[key := s1]> SESSIONS0 !! sid = Some s2 /\
        sess_id s2 = sess_id s0 /\ created s2 = created s0 /\
        messages s0 `prefix_of` messages s2 /\ sections s0 `prefix_of` sections s2).
    { intros s1 H1 H2 H3 H4. destruct (decide (sid = key)) as [Heq|Hne].
      - specialize (Hkey Heq). subst. rewrite lookup_insert_eq. by exists s1.
      - rewrite lookup_insert_ne by done. rewrite (Hother Hne). by exists s0. }
    destruct (int_top_k (p_top_k payload)) as [k|err].
    + destruct (completions_create ext _) as [ai|err]; rewrite Hrun; simpl;
        apply Hstate; simpl; try reflexivity.
      * rewrite <- app_assoc. by eexists.
      * by eexists.
      * by eexists.
    + rewrite Hrun. simpl. apply Hstate; simpl; try reflexivity. by eexists.
  - unfold create_session_route, create_session. simpl.
    rewrite lookup_insert_ne; [done|]. intros <-. congruence.
  - unfold rename_session. destruct (SESSIONS !! session_id) as [s|] eqn:E; [|done].
    simpl. destruct (decide (sid = session_id)) as [->|Hne].
    + rewrite lookup_insert_eq. assert (s = s0) as -> by congruence.
      eexists. split; [reflexivity|]. by destruct (Py.truthy _).
    + by rewrite lookup_insert_ne.
Qed.

(** X8. Stored conversations are never deleted and only grow. Along any
    sequence of requests to the multi-session store (submit message,
    create, rename) in which no new id collides with an id in use, a
    conversation that is stored stays stored under its id, keeps its id
    and creation time, and its messages and sections are extended at the
    end only: what was recorded is never removed, reordered or
    rewritten. *)
Theorem store_append_only (reqs : list StoreRequest) (SESSIONS : gmap string Session)
    (sid : string) (s0 : Session) :
  run_creates_unused_ids reqs SESSIONS -> SESSIONS !! sid = Some s0 ->
  exists s1,
    (run_store reqs SESSIONS).2 !! sid = Some s1 /\
    sess_id s1 = sess_id s0 /\ created s1 = created s0 /\
    messages s0 `prefix_of` messages s1 /\ sections s0 `prefix_of` sections s1.
Proof.
  revert SESSIONS s0. induction reqs as [|r reqs IH]; intros SESSIONS s0 Hfresh Hs0.
  - by exists s0.
  - destruct Hfresh as [Hr Hrest]. simpl.
    destruct (store_step_append_only r SESSIONS sid s0 Hr Hs0)
      as (s1 & Hs1 & Hid & Hcr & Hms & Hss).
    destruct (IH _ s1 Hrest Hs1) as (s2 & Hs2 & Hid2 & Hcr2 & Hms2 & Hss2).
    destruct (run_store reqs (state (store_step r SESSIONS))) as [responses final].
    simpl in *. exists s2. split; [exact Hs2|].
    split; [congruence|]. split; [congruence|].
    split; etrans; eauto.
Qed.

Lemma store_append_only_witness :
  exists s1,
    (run_store [ReqChatSession ext_answering
                  (mkPayload (Some "Cupid Limited") None (Some (uuid4 ext_failing))
                     TopKMissing)]
       (run_store [ReqChatSession ext_failing (message_only "Cupid Limited")] ∅).2).2
      !! uuid4 ext_failing = Some s1 /\
    [msg_with_meta user "Cupid Limited"] `prefix_of` messages s1.
Proof.
  destruct (store_append_only
    [ReqChatSession ext_answering
       (mkPayload (Some "Cupid Limited") None (Some (uuid4 ext_failing)) TopKMissing)]
    (run_store [ReqChatSession ext_failing (message_only "Cupid Limited")] ∅).2
    (uuid4 ext_failing)
    (mkSession (uuid4 ext_failing) "New chat" (utcnow_created ext_failing)
       [msg_with_meta user "Cupid Limited"] [] "cupid limited"))
    as (s1 & H1 & _ & _ & H2 & _).
  - split; [vm_compute; reflexivity|exact I].
  - vm_compute. reflexivity.
  - exists s1. split; [exact H1|exact H2].
Defined.

(** *** Topics are stored in normal form *)

Lemma isspace_lower_char (c : ascii) : Py.isspace (Py.lower_char c) = Py.isspace c.
Proof. destruct c as [[] [] [] [] [] [] [] []]; vm_compute; reflexivity. Qed.

Lemma lower_char_idem (c : ascii) : Py.lower_char (Py.lower_char c) = Py.lower_char c.
Proof. destruct c as [[] [] [] [] [] [] [] []]; vm_compute; reflexivity. Qed.

Lemma lower_idem (s : string) : Py.lower (Py.lower s) = Py.lower s.
Proof. induction s as [|c s IH]; simpl; [reflexivity|]. by rewrite lower_char_idem, IH. Qed.

Lemma lstrip_lower (s : string) : Py.lstrip (Py.lower s) = Py.lower (Py.lstrip s).
Proof.
  induction s as [|c s IH]; simpl; [reflexivity|].
  rewrite isspace_lower_char. by destruct (Py.isspace c).
Qed.

Lemma rstrip_lower (s : string) : Py.rstrip (Py.lower s) = Py.lower (Py.rstrip s).
Proof.
  induction s as [|c s IH]; simpl; [reflexivity|].
  rewrite IH, isspace_lower_char.
  destruct (Py.rstrip s) as [|d r]; simpl; [by destruct (Py.isspace c)|reflexivity].
Qed.

Lemma strip_lower (s : string) : Py.strip (Py.lower s) = Py.lower (Py.strip s).
Proof. unfold Py.strip. by rewrite lstrip_lower, rstrip_lower. Qed.

Lemma rstrip_idem (s : string) : Py.rstrip (Py.rstrip s) = Py.rstrip s.
Proof.
  induction s as [|c s IH]; simpl; [reflexivity|].
  destruct (Py.rstrip s) as [|d r] eqn:E.
  - destruct (Py.isspace c) eqn:Ec; simpl; [reflexivity|]. by rewrite Ec.
  - simpl in *. by rewrite IH.
Qed.

(** A string that does not start with whitespace. *)
Lemma lstrip_clean (s : string) :
  match Py.lstrip s with String c _ => Py.isspace c = false | EmptyString => True end.
Proof.
  induction s as [|c s IH]; simpl; [exact I|].
  destruct (Py.isspace c) eqn:E; [exact IH|exact E].
Qed.

Lemma lstrip_rstrip_clean (s : string) :
  match s with String c _ => Py.isspace c = false | EmptyString => True end ->
  Py.lstrip (Py.rstrip s) = Py.rstrip s.
Proof.
  destruct s as [|c s]; [reflexivity|]. intros Hc. simpl.
  destruct (Py.rstrip s); rewrite ?Hc; simpl; rewrite ?Hc; reflexivity.
Qed.

Lemma strip_idem (s : string) : Py.strip (Py.strip s) = Py.strip s.
Proof.
  unfold Py.strip. rewrite lstrip_rstrip_clean by apply lstrip_clean.
  apply rstrip_idem.
Qed.

Lemma normalised_lower_strip (m : string) : normalised (Py.lower (Py.strip m)).
Proof.
  unfold normalised. by rewrite lower_idem, strip_lower, strip_idem.
Qed.

Lemma extract_topic_cases (user_msg : string) (last_topic : option string) :
  extract_topic user_msg last_topic = last_topic \/
  extract_topic user_msg last_topic = Some (Py.lower (Py.strip user_msg)).
Proof.
  unfold extract_topic. destruct (negb (Py.truthy user_msg)); [by left|].
  destruct (Py.findall_lower_alnum _) as [|tok rest]; [by left|].
  destruct (bool_decide _); [by left|].
  destruct (_ <=? _)%nat; [by right|by left].
Qed.

Lemma new_topic_normalised (user_msg last : string) :
  normalised last ->
  normalised (Py.or_empty (extract_topic user_msg (Some last))).
Proof.
  intros Hlast. destruct (extract_topic_cases user_msg (Some last)) as [-> | ->]; simpl;
    [exact Hlast|apply normalised_lower_strip].
Qed.

(** A property of stored conversations that every request preserves
    holds after every sequence of requests. *)
Lemma run_store_preserves (Q : Session -> Prop) :
  (forall r SESSIONS,
     (forall sid s, SESSIONS !! sid = Some s -> Q s) ->
     forall sid s, state (store_step r SESSIONS) !! sid = Some s -> Q s) ->
  forall reqs SESSIONS,
    (forall sid s, SESSIONS !! sid = Some s -> Q s) ->
    forall sid s, (run_store reqs SESSIONS).2 !! sid = Some s -> Q s.
Proof.
  intros Hstep reqs. induction reqs as [|r reqs IH]; intros SESSIONS Hall; [exact Hall|].
  simpl. specialize (IH (state (store_step r SESSIONS)) (Hstep r SESSIONS Hall)).
  by destruct (run_store reqs (state (store_step r SESSIONS))).
Qed.

Lemma run_flask_preserves (Q : FlaskSession -> Prop) :
  (forall r session, Q session -> Q (state (flask_step r session))) ->
  forall reqs session, Q session -> Q (run_flask reqs session).2.
Proof.
  intros Hstep reqs. induction reqs as [|r reqs IH]; intros session HQ; [exact HQ|].
  simpl. specialize (IH (state (flask_step r session)) (Hstep r session HQ)).
  by destruct (run_flask reqs (state (flask_step r session))).
Qed.

Lemma store_step_topics (r : StoreRequest) (SESSIONS : gmap string Session) :
  (forall sid s, SESSIONS !! sid = Some s -> normalised (current_topic s)) ->
  forall sid s, state (store_step r SESSIONS) !! sid = Some s ->
    normalised (current_topic s).
Proof.
  intros Hall sid s.
  assert (Hins : forall key s1 (S0 : gmap string Session),
    (forall sid s, S0 !! sid = Some s -> normalised (current_topic s)) ->
    normalised (current_topic s1) ->
    <[key := s1]> S0 !! sid = Some s -> normalised (current_topic s)).
  { intros key s1 S0 H0 H1. rewrite lookup_insert. case_decide; [by intros [= <-]|apply H0]. }
  destruct r as [ext payload|ext data_title|session_id data_title]; simpl.
  - destruct (Py.truthy (Py.strip (Py.or_empty (p_message payload)))) eqn:Hmsg.
    2:{ unfold chat_session. rewrite Hmsg. apply Hall. }
    destruct (chat_session_run ext payload SESSIONS Hmsg)
      as (s0 & key & SESSIONS0 & Hens & Hrun). cbv zeta in Hrun.
    pose proof (ensure_session_cases ext (p_session_id payload) SESSIONS) as Hcases.
    rewrite Hens in Hcases.
    assert (Hs0 : normalised (current_topic s0)).
    { destruct Hcases as [[H _]|(_ & -> & _)]; [by eapply Hall|reflexivity]. }
    assert (H0 : forall sid s, SESSIONS0 !! sid = Some s -> normalised (current_topic s)).
    { destruct Hcases as [[_ ->]|(_ & Hs & ->)]; [exact Hall|].
      intros sid' s'. rewrite lookup_insert. case_decide; [|apply Hall].
      intros [= <-]. exact Hs0. }
    pose proof (new_topic_normalised (Py.strip (Py.or_empty (p_message payload)))
                  (current_topic s0) Hs0) as Hnew.
    destruct (int_top_k (p_top_k payload)) as [k|err].
    + destruct (completions_create ext _) as [ai|err]; rewrite Hrun; simpl;
        by apply Hins.
    + rewrite Hrun. simpl. by apply Hins.
  - unfold create_session_route, create_session. simpl. by apply Hins.
  - unfold rename_session. destruct (SESSIONS !! session_id) as [s0|] eqn:E; [|apply Hall].
    simpl. apply Hins; [exact Hall|].
    destruct (Py.truthy _); simpl; by eapply Hall.
Qed.

Lemma flask_step_topics (r : FlaskRequest) (session : FlaskSession) :
  (forall t, flask_current_topic session = Some t -> normalised t) ->
  forall t, flask_current_topic (state (flask_step r session)) = Some t -> normalised t.
Proof.
  intros Hall t. destruct r as [ext payload|]; simpl; [|discriminate].
  destruct (Py.truthy (Py.strip (Py.or_empty (p_message payload)))) eqn:Hmsg.
  2:{ unfold chat. rewrite Hmsg. apply Hall. }
  pose proof (chat_run ext payload session Hmsg) as Hrun. cbv zeta in Hrun.
  assert (Hlast : normalised (default "" (flask_current_topic session))).
  { destruct (flask_current_topic session) as [t0|]; simpl; [by apply Hall|reflexivity]. }
  pose proof (new_topic_normalised (Py.strip (Py.or_empty (p_message payload))) _ Hlast)
    as Hnew.
  destruct (int_top_k (p_top_k payload)) as [k|err].
  - destruct (completions_create ext _) as [ai|err]; rewrite Hrun; simpl;
      by intros [= <-].
  - rewrite Hrun. simpl. by intros [= <-].
Qed.

(** X9. Topics are stored in normal form. After any sequence of requests,
    starting from the empty store or from a new visitor's session, every
    stored current topic is lowercase and trimmed: the normalisation
    that the Session Memory Builder applies to it ([lower] then [strip])
    leaves it unchanged, so the memory filter always searches for the
    topic exactly as it is stored. *)
Theorem stored_topics_normalised :
  (forall reqs sid s,
     (run_store reqs ∅).2 !! sid = Some s ->
     Py.strip (Py.lower (current_topic s)) = current_topic s /\
     forall sections,
       topic_filtered sections (Some (current_topic s)) =
         if Py.truthy (current_topic s)
         then List.filter (topic_in_section (current_topic s)) sections
         else []) /\
  (forall reqs t,
     flask_current_topic (run_flask reqs new_flask_session).2 = Some t ->
     Py.strip (Py.lower t) = t).
Proof.
  split.
  - intros reqs sid s Hs.
    assert (Hn : normalised (current_topic s)).
    { refine (run_store_preserves (fun s => normalised (current_topic s))
                store_step_topics reqs ∅ _ sid s Hs).
      intros sid' s' H. by rewrite lookup_empty in H. }
    split; [exact Hn|]. intros sections. unfold topic_filtered. simpl.
    unfold normalised in Hn. by rewrite Hn.
  - intros reqs.
    refine (run_flask_preserves (fun fs => forall t, flask_current_topic fs = Some t ->
                                             normalised t)
              flask_step_topics reqs new_flask_session _).
    intros t. discriminate.
Qed.

Lemma stored_topics_normalised_witness :
  Py.strip (Py.lower "cupid limited") = "cupid limited".
Proof.
  refine (proj1 (proj1 stored_topics_normalised
                   [ReqChatSession ext_answering (message_only "  Cupid Limited ")]
                   (uuid4 ext_answering)
                   (mkSession (uuid4 ext_answering) "New chat"
                      (utcnow_created ext_answering)
                      [msg_with_meta user "Cupid Limited";
                       msg_with_meta assistant "Cupid Limited makes consumer goods."]
                      [mkSection (utcnow_section ext_answering) "Cupid Limited"
                         "Cupid Limited makes consumer goods."]
                      "cupid limited") _)).
  vm_compute. reflexivity.
Defined.

(** *** A message for a stored conversation *)

(** X10. A submit-message request that names a stored conversation is
    processed in that conversation. With a non-empty session id that is
    a key of the store and a message that passes validation, no
    conversation is created (the store keeps its set of ids), every
    other conversation is untouched, the named conversation keeps its
    title and gets the user message appended right after what it held,
    and a successful response returns the same session id. *)
Theorem chat_session_known_id (ext : Externals) (payload : Payload)
    (SESSIONS : gmap string Session) (sid : string) (s0 : Session) :
  p_session_id payload = Some sid -> sid <> "" -> SESSIONS !! sid = Some s0 ->
  let user_msg := Py.strip (Py.or_empty (p_message payload)) in
  user_msg <> "" ->
  let o := chat_session ext payload SESSIONS in
  dom (state o) = dom SESSIONS /\
  (forall other, other <> sid -> state o !! other = SESSIONS !! other) /\
  (exists s1 rest,
     state o !! sid = Some s1 /\ title s1 = title s0 /\
     messages s1 = (messages s0 ++ msg_with_meta user user_msg :: rest)%list) /\
  (forall key ai_msg sources,
     response o = RespChatSession key ai_msg sources -> key = sid).
Proof.
  intros Hid Hsid Hs0 user_msg Hmsg o. subst o user_msg.
  apply truthy_true in Hmsg. apply truthy_true in Hsid.
  destruct (chat_session_run ext payload SESSIONS Hmsg)
    as (s & key & SESSIONS0 & Hens & Hrun). cbv zeta in Hrun.
  unfold ensure_session in Hens. rewrite Hid, Hsid, Hs0 in Hens.
  injection Hens as <- <- <-.
  assert (Hdom : forall s1, dom (<[sid := s1]> SESSIONS) = dom SESSIONS).
  { intros s1. apply dom_insert_lookup_L. by eexists. }
  assert (Hother : forall s1 other, other <> sid ->
            <[sid := s1]> SESSIONS !! other = SESSIONS !! other).
  { intros s1 other Hne. by rewrite lookup_insert_ne. }
  destruct (int_top_k (p_top_k payload)) as [k|err].
  - destruct (completions_create ext _) as [ai|err]; rewrite Hrun; simpl.
    + split; [apply Hdom|]. split; [apply Hother|]. split.
      * eexists _, [_]. rewrite lookup_insert_eq. split; [reflexivity|].
        split; [reflexivity|]. simpl. by rewrite <- app_assoc.
      * by intros key ai_msg sources [= <- _ _].
    + split; [apply Hdom|]. split; [apply Hother|]. split.
      * eexists _, []. rewrite lookup_insert_eq. by split.
      * intros ? ? ? [=].
  - rewrite Hrun. simpl. split; [apply Hdom|]. split; [apply Hother|]. split.
    + eexists _, []. rewrite lookup_insert_eq. by split.
    + intros ? ? ? [=].
Qed.

Lemma chat_session_known_id_witness :
  dom (state (chat_session ext_answering
                (mkPayload (Some "who is the owner") None (Some (uuid4 ext_failing))
                   TopKMissing)
                (run_store [ReqChatSession ext_failing (message_only "Cupid Limited")] ∅).2))
  = dom (run_store [ReqChatSession ext_failing (message_only "Cupid Limited")] ∅).2.
Proof.
  refine (proj1 (chat_session_known_id ext_answering
    (mkPayload (Some "who is the owner") None (Some (uuid4 ext_failing)) TopKMissing)
    (run_store [ReqChatSession ext_failing (message_only "Cupid Limited")] ∅).2
    (uuid4 ext_failing)
    (mkSession (uuid4 ext_failing) "New chat" (utcnow_created ext_failing)
       [msg_with_meta user "Cupid Limited"] [] "cupid limited")
    eq_refl _ _ _)).
  - vm_compute. discriminate.
  - vm_compute. reflexivity.
  - vm_compute. discriminate.
Defined.

(** *** Create, fetch and rename *)

(** X11. Create, fetch and rename round trips. Fetching never changes
    the store and answers 404 for an id that is not stored. A
    conversation created by [POST /sessions] is fetched back under the
    id of the response, unchanged, with the title of the request kept as
    it is, or ["New chat"] when the title is missing or empty. Renaming a
    stored conversation, then fetching it, returns it with the trimmed
    new title, or with its old title when the new one is blank; renaming
    an id that is not stored answers 404 and changes nothing; renaming
    twice with the same title is the same as renaming once. *)
Theorem session_round_trips (ext : Externals) (data_title : option string)
    (session_id : string) (SESSIONS : gmap string Session) :
  (state (get_session session_id SESSIONS) = SESSIONS /\
   (SESSIONS !! session_id = None ->
    status_of (response (get_session session_id SESSIONS)) = 404%Z /\
    rename_session session_id data_title SESSIONS =
      mkOutcome (RespError 404 "Session not found") SESSIONS [])) /\
  (forall created_s,
     response (create_session_route ext data_title SESSIONS) = RespSession 201 created_s /\
     response (get_session (sess_id created_s)
                 (state (create_session_route ext data_title SESSIONS)))
       = RespSession 200 created_s ->
     title created_s =
       match data_title with
       | Some (String c t) => String c t
       | _ => "New chat"
       end /\
     messages created_s = [] /\ sections created_s = [] /\ current_topic created_s = "") /\
  (exists created_s,
     response (create_session_route ext data_title SESSIONS) = RespSession 201 created_s /\
     response (get_session (sess_id created_s)
                 (state (create_session_route ext data_title SESSIONS)))
       = RespSession 200 created_s) /\
  (forall s, SESSIONS !! session_id = Some s ->
     let renamed := state (rename_session session_id data_title SESSIONS) in
     response (get_session session_id renamed) =
       RespSession 200
         (set_title (if Py.truthy (Py.strip (Py.or_empty data_title))
                     then Py.strip (Py.or_empty data_title) else title s) s) /\
     state (rename_session session_id data_title renamed) = renamed).
Proof.
  split; [|split; [|split]].
  - unfold get_session, rename_session.
    destruct (SESSIONS !! session_id); split; done.
  - intros created_s [Hc _]. unfold create_session_route, create_session in Hc.
    simpl in Hc. injection Hc as <-. simpl.
    by destruct data_title as [[|c t]|].
  - unfold create_session_route, create_session, get_session. simpl.
    eexists. split; [reflexivity|]. simpl. by rewrite lookup_insert_eq.
  - intros s Hs renamed. subst renamed. unfold rename_session, get_session. rewrite Hs.
    simpl. rewrite !lookup_insert_eq. simpl. split.
    + destruct (Py.truthy _); [reflexivity|]. by destruct s.
    + rewrite insert_insert_eq. f_equal.
      destruct (Py.truthy (Py.strip (Py.or_empty data_title))); reflexivity.
Qed.

Lemma session_round_trips_witness :
  status_of (response (get_session "no-such-id" ∅)) = 404%Z /\
  rename_session "no-such-id" (Some "Budget") ∅ =
    mkOutcome (RespError 404 "Session not found") ∅ [].
Proof.
  apply (proj2 (proj1 (session_round_trips ext_answering (Some "Budget") "no-such-id" ∅))).
  reflexivity.
Defined.

(** *** The shape of stored conversations *)

Lemma dialogue_app_user (b : bool) (ms rest : list Message) (x : Message) :
  role x = user ->
  dialogue b (ms ++ x :: rest) = dialogue b ms && dialogue true rest.
Proof.
  intros Hx. revert b. induction ms as [|m tl IH]; intros b; simpl.
  - by rewrite Hx.
  - destruct (role m); [reflexivity|apply IH|]. rewrite IH. apply andb_assoc.
Qed.

Lemma dialogue_no_system (b : bool) (ms : list Message) :
  dialogue b ms = true -> Forall (fun m => role m <> system) ms.
Proof.
  revert b. induction ms as [|m tl IH]; intros b; simpl; [constructor|].
  destruct (role m) eqn:E; [discriminate| |].
  - intros H. constructor; [congruence|by eapply IH].
  - intros [_ H]%andb_true_iff. constructor; [congruence|by eapply IH].
Qed.

Lemma recorded_dialogue (ms : list Message) (ss : list QASection) :
  recorded ms ss -> dialogue false ms = true.
Proof.
  induction 1 as [|ms ss u a x _ IH Hu Ha Hx|ms ss u _ IH Hu]; [reflexivity| |].
  - rewrite dialogue_app_user by done. rewrite IH. simpl. by rewrite Ha.
  - rewrite dialogue_app_user by done. by rewrite IH.
Qed.

Lemma flask_step_keys (r : FlaskRequest) (session : FlaskSession) :
  keys_together session -> keys_together (state (flask_step r session)).
Proof.
  intros Hkeys. destruct r as [ext payload|]; simpl; [|by left].
  destruct (Py.truthy (Py.strip (Py.or_empty (p_message payload)))) eqn:Hmsg.
  2:{ unfold chat. by rewrite Hmsg. }
  pose proof (chat_run ext payload session Hmsg) as Hrun. cbv zeta in Hrun.
  destruct (int_top_k (p_top_k payload)) as [k|err].
  - destruct (completions_create ext _) as [ai|err]; rewrite Hrun; right; simpl; eauto.
  - rewrite Hrun. right. simpl. eauto.
Qed.

(** X12. The shape of stored conversations. After any sequence of
    requests, a conversation of the multi-session store holds no system
    message and every assistant message in it comes directly after a
    user message; the Flask session holds its three keys together or
    none of them, and its history, when present, is the seed system
    message followed by such a dialogue: the seed is the only system
    message ever stored. *)
Theorem conversation_shape :
  (forall reqs sid s,
     (run_store reqs ∅).2 !! sid = Some s ->
     dialogue false (messages s) = true /\
     Forall (fun m => role m <> system) (messages s)) /\
  (forall reqs,
     keys_together (run_flask reqs new_flask_session).2 /\
     forall h, history (run_flask reqs new_flask_session).2 = Some h ->
       exists ms, h = seed_message :: ms /\ dialogue false ms = true /\
                  Forall (fun m => role m <> system) ms).
Proof.
  split.
  - intros reqs sid s Hs.
    assert (Hrec : recorded (messages s) (sections s)).
    { refine (run_store_invariant recorded (fun _ => True) recorded_nil recorded_step
                reqs ∅ (Forall_any_status _) _ sid s Hs).
      intros sid' s' H. by rewrite lookup_empty in H. }
    apply recorded_dialogue in Hrec. split; [exact Hrec|by eapply dialogue_no_system].
  - intros reqs. split.
    + apply (run_flask_preserves keys_together flask_step_keys). by left.
    + intros h Hh.
      pose proof (run_flask_invariant recorded (fun _ => True) recorded_nil recorded_step
                    reqs new_flask_session (Forall_any_status _) I) as Hinv.
      unfold flask_session_holds in Hinv. rewrite Hh in Hinv.
      destruct (flask_sections (run_flask reqs new_flask_session).2) as [ss|]; [|done].
      destruct Hinv as (ms & -> & Hrec). exists ms. split; [reflexivity|].
      apply recorded_dialogue in Hrec. split; [exact Hrec|by eapply dialogue_no_system].
Qed.

Lemma conversation_shape_witness :
  dialogue false
    [msg_with_meta user "Cupid Limited"; msg_with_meta user "Cupid Limited";
     msg_with_meta assistant "Cupid Limited makes consumer goods."] = true.
Proof.
  refine (proj1 (proj1 conversation_shape failing_then_answering (uuid4 ext_failing)
    (mkSession (uuid4 ext_failing) "New chat" (utcnow_created ext_failing)
       [msg_with_meta user "Cupid Limited"; msg_with_meta user "Cupid Limited";
        msg_with_meta assistant "Cupid Limited makes consumer goods."]
       [mkSection (utcnow_section ext_answering) "Cupid Limited"
          "Cupid Limited makes consumer goods."]
       "cupid limited") _)).
  vm_compute. reflexivity.
Defined.

(* ================================================================== *)
(** ** The document pipeline of the NSE scripts *)
(* ================================================================== *)

(** *** Staging a document in blocks *)

Section Blocks.

Variable block_size : nat.
Hypothesis block_size_pos : 0 < block_size.

Lemma stage_blocks_concat (fuel i index : nat) (data : list Byte.byte) :
  length data - i <= fuel ->
  List.concat (map snd (DownloadPdfs.stage_blocks fuel block_size i index data))
    = drop i data.
Proof.
  revert i index. induction fuel as [|fuel IH]; intros i index Hfuel; simpl.
  - symmetry. apply drop_ge. lia.
  - destruct (i <? length data)%nat eqn:E.
    + apply Nat.ltb_lt in E. simpl. rewrite IH by lia.
      rewrite <- (take_drop block_size (drop i data)) at 2.
      f_equal. rewrite drop_drop. reflexivity.
    + apply Nat.ltb_ge in E. simpl. symmetry. by apply drop_ge.
Qed.

Lemma stage_blocks_ids (fuel i index : nat) (data : list Byte.byte) :
  map fst (DownloadPdfs.stage_blocks fuel block_size i index data) =
    DownloadPdfs.block_id_of <$>
      seq index (length (DownloadPdfs.stage_blocks fuel block_size i index data)).
Proof.
  revert i index. induction fuel as [|fuel IH]; intros i index; simpl; [reflexivity|].
  destruct (i <? length data)%nat; [|reflexivity]. simpl. by rewrite IH.
Qed.

Lemma stage_blocks_sizes (fuel i index : nat) (data : list Byte.byte) :
  Forall (fun b => 0 < length b.2 <= block_size)
    (DownloadPdfs.stage_blocks fuel block_size i index data).
Proof.
  revert i index. induction fuel as [|fuel IH]; intros i index; simpl; [constructor|].
  destruct (i <? length data)%nat eqn:E; [|constructor].
  apply Nat.ltb_lt in E. constructor; [|apply IH].
  simpl. rewrite length_take, length_drop. lia.
Qed.

Lemma stage_blocks_count (fuel i index : nat) (data : list Byte.byte) :
  length (DownloadPdfs.stage_blocks fuel block_size i index data) * block_size
    < length data - i + block_size.
Proof.
  revert i index. induction fuel as [|fuel IH]; intros i index; simpl; [lia|].
  destruct (i <? length data)%nat eqn:E; [|simpl; lia].
  apply Nat.ltb_lt in E. simpl. specialize (IH (i + block_size) (S index)).
  destruct (decide (i + block_size <= length data)); [lia|].
  assert (length (DownloadPdfs.stage_blocks fuel block_size (i + block_size) (S index) data)
          = 0) as -> by nia.
  lia.
Qed.

End Blocks.

Lemma substring_all (s : string) : substring 0 (String.length s) s = s.
Proof. induction s as [|c s IH]; simpl; [reflexivity|]. by rewrite IH. Qed.

Lemma append_nil_l (s : string) : "" ++ s = s.
Proof. reflexivity. Qed.

Lemma append_cons (c : ascii) (a s : string) : String c a ++ s = String c (a ++ s).
Proof. reflexivity. Qed.

Lemma uint_of_zeros (k : nat) (s : string) (d : Decimal.uint) :
  NilEmpty.uint_of_string s = Some d ->
  Nat.of_uint <$> NilEmpty.uint_of_string (zeros k ++ s) = Some (Nat.of_uint d).
Proof.
  intros Hs. induction k as [|k IH]; cbn [zeros].
  - by rewrite append_nil_l, Hs.
  - rewrite append_cons. cbn [NilEmpty.uint_of_string].
    destruct (NilEmpty.uint_of_string (zeros k ++ s)) as [d'|]; [|discriminate].
    simpl in *. injection IH as IH. f_equal. rewrite <- IH. reflexivity.
Qed.

Lemma after_block_prefix (r : string) :
  substring 6 (String.length ("block-" ++ r) - 6) ("block-" ++ r) = r.
Proof.
  rewrite !append_cons, append_nil_l. simpl. rewrite Nat.sub_0_r. apply substring_all.
Qed.

(** The index is read back from a block id. *)
Lemma block_index_of (index : nat) :
  block_index (DownloadPdfs.block_id_of index) = Some index.
Proof.
  unfold block_index, DownloadPdfs.block_id_of. cbv zeta.
  rewrite after_block_prefix.
  rewrite (uint_of_zeros _ _ (Nat.to_uint index)) by apply NilEmpty.usu.
  by rewrite Unsigned.of_to.
Qed.

#[local] Instance block_id_of_inj : Inj (=) (=) DownloadPdfs.block_id_of.
Proof.
  intros a b H. apply (f_equal block_index) in H.
  rewrite !block_index_of in H. by injection H.
Qed.

Lemma staged_skip (block_id : string) (blocks : list (string * list Byte.byte))
    (staged : gmap string (list Byte.byte)) :
  block_id ∉ map fst blocks ->
  foldl (fun staged c =>
           match c with
           | StageBlock block_id data => <[block_id := data]> staged
           | CommitBlockList _ _ => staged
           end) staged (map (fun b => StageBlock b.1 b.2) blocks) !! block_id
    = staged !! block_id.
Proof.
  revert staged. induction blocks as [|b blocks IH]; intros staged Hnotin; [reflexivity|].
  simpl in *. apply not_elem_of_cons in Hnotin as [Hne Hnotin].
  rewrite IH by done. by rewrite lookup_insert_ne.
Qed.

Lemma staged_lookup (blocks : list (string * list Byte.byte))
    (staged : gmap string (list Byte.byte)) :
  NoDup (map fst blocks) ->
  Forall2 (fun block_id data =>
             foldl (fun staged c =>
                      match c with
                      | StageBlock block_id data => <[block_id := data]> staged
                      | CommitBlockList _ _ => staged
                      end) staged (map (fun b => StageBlock b.1 b.2) blocks) !! block_id
             = Some data)
    (map fst blocks) (map snd blocks).
Proof.
  revert staged. induction blocks as [|b blocks IH]; intros staged Hnodup; simpl;
    [constructor|].
  apply NoDup_cons in Hnodup as [Hnotin Hnodup]. constructor.
  - rewrite staged_skip by done. apply lookup_insert_eq.
  - by apply IH.
Qed.

Lemma blob_after_blocks (blocks : list (string * list Byte.byte)) (content_type : string) :
  NoDup (map fst blocks) ->
  blob_after (map (fun b => StageBlock b.1 b.2) blocks ++
              [CommitBlockList (map fst blocks) content_type])
    = Some (List.concat (map snd blocks)).
Proof.
  intros Hnodup. unfold blob_after. rewrite last_snoc.
  unfold staged_after. rewrite foldl_app. simpl.
  rewrite (mapM_Some_2 _ _ (map snd blocks)); [reflexivity|].
  by apply staged_lookup.
Qed.

(** X13. A document uploaded in blocks arrives whole. [upload_large_pdf]
    stages blocks and then commits them with one call, the last one, for
    the content type [application/pdf]; the committed list is the list
    of staged ids, in staging order, the ids [block-00000],
    [block-00001], ... are pairwise distinct, every block holds between
    1 and 4 MiB (none for empty data), and, by the contract of the blob
    service, the blob holds after the commit exactly the bytes of
    [data]. *)
Theorem upload_large_pdf_whole (data : list Byte.byte) :
  exists blocks,
    DownloadPdfs.upload_large_pdf data =
      (map (fun b => StageBlock b.1 b.2) blocks ++
       [CommitBlockList (map fst blocks) "application/pdf"])%list /\
    map fst blocks = DownloadPdfs.block_id_of <$> seq 0 (length blocks) /\
    NoDup (map fst blocks) /\
    Forall (fun b => (1 <= Z.of_nat (length b.2) <= 4 * 1024 * 1024)%Z) blocks /\
    List.concat (map snd blocks) = data /\
    (Z.of_nat (length blocks) * (4 * 1024 * 1024) <
     Z.of_nat (length data) + 4 * 1024 * 1024)%Z /\
    blob_after (DownloadPdfs.upload_large_pdf data) = Some data.
Proof.
  assert (Hpos : 0 < Z.to_nat DownloadPdfs.BLOCK_SIZE)
    by (unfold DownloadPdfs.BLOCK_SIZE; lia).
  set (blocks := DownloadPdfs.stage_blocks (length data)
                   (Z.to_nat DownloadPdfs.BLOCK_SIZE) 0 0 data).
  assert (Hids : map fst blocks = DownloadPdfs.block_id_of <$> seq 0 (length blocks))
    by apply stage_blocks_ids.
  assert (Hnodup : NoDup (map fst blocks)).
  { rewrite Hids. apply (NoDup_fmap_2 _), NoDup_seq. }
  assert (Hconcat : List.concat (map snd blocks) = data).
  { subst blocks. rewrite stage_blocks_concat by (done || lia). apply drop_0. }
  exists blocks. split; [reflexivity|]. split; [exact Hids|]. split; [exact Hnodup|].
  split.
  { eapply Forall_impl; [apply (stage_blocks_sizes _ Hpos)|].
    intros b Hb. cbv beta in Hb. unfold DownloadPdfs.BLOCK_SIZE in Hb. lia. }
  split; [exact Hconcat|]. split.
  { pose proof (stage_blocks_count _ Hpos (length data) 0 0 data) as Hc.
    fold blocks in Hc. unfold DownloadPdfs.BLOCK_SIZE in Hc. nia. }
  unfold DownloadPdfs.upload_large_pdf. fold blocks.
  by rewrite blob_after_blocks, Hconcat.
Qed.

(** X14. Block ids name their index. The id of the block with a given
    index is [block-] followed by the index in decimal, padded with
    zeros to five digits; the index is read back from the id, so two
    blocks never share an id, and an index written with at most five
    digits gives an id of exactly 11 characters. *)
Theorem block_ids_name_index (index other : nat) :
  block_index (DownloadPdfs.block_id_of index) = Some index /\
  (DownloadPdfs.block_id_of index = DownloadPdfs.block_id_of other -> index = other) /\
  (String.length (str_of_nat index) <= 5 ->
   String.length (DownloadPdfs.block_id_of index) = 11).
Proof.
  split; [apply block_index_of|]. split; [apply block_id_of_inj|].
  intros Hlen. unfold DownloadPdfs.block_id_of.
  assert (Hz : forall k, String.length (zeros k) = k)
    by (induction k as [|k IH]; simpl; [reflexivity|by rewrite IH]).
  cbv zeta. rewrite !string_length_app, Hz. simpl. lia.
Qed.

Lemma block_ids_name_index_witness :
  String.length (DownloadPdfs.block_id_of 14) = 11 /\
  (DownloadPdfs.block_id_of 14 = DownloadPdfs.block_id_of 14 -> 14 = 14).
Proof.
  split.
  - apply (proj2 (proj2 (block_ids_name_index 14 14))). vm_compute. lia.
  - exact (proj1 (proj2 (block_ids_name_index 14 14))).
Defined.

(** *** Downloading a document *)

Lemma read_stream_some (acc data : list Byte.byte) (stream : list StreamItem) :
  DownloadPdfs.read_stream acc stream = Some data ->
  data = (acc ++ List.concat (leading_chunks stream))%list /\
  ((Z.of_nat (length acc) <= DownloadPdfs.max_size)%Z ->
   (Z.of_nat (length data) <= DownloadPdfs.max_size)%Z).
Proof.
  revert acc. induction stream as [|item stream IH]; intros acc; simpl.
  - intros [= <-]. by rewrite app_nil_r.
  - destruct item as [[|b chunk]|]; simpl.
    + intros [= <-]. by rewrite app_nil_r.
    + destruct (_ >? _)%Z eqn:E; [discriminate|]. intros H.
      apply IH in H as [-> Hlen]. split; [by rewrite <- app_assoc|].
      intros _. apply Hlen. lia.
    + discriminate.
Qed.

Lemma read_stream_plain (acc : list Byte.byte) (stream : list StreamItem) :
  plain_stream stream ->
  (Z.of_nat (length (acc ++ List.concat (leading_chunks stream))) <=
   DownloadPdfs.max_size)%Z ->
  DownloadPdfs.read_stream acc stream =
    Some (acc ++ List.concat (leading_chunks stream))%list.
Proof.
  revert acc. induction stream as [|item stream IH]; intros acc Hplain Hlen; simpl.
  - by rewrite app_nil_r.
  - apply Forall_cons in Hplain as [Hitem Hplain].
    destruct item as [[|b chunk]|]; [done| |done].
    cbn [leading_chunks List.concat] in *. cbn [DownloadPdfs.read_stream].
    assert (Hlen' : (Z.of_nat (length ((acc ++ b :: chunk) ++
                       List.concat (leading_chunks stream))) <= DownloadPdfs.max_size)%Z)
      by (rewrite <- app_assoc; exact Hlen).
    destruct (_ >? _)%Z eqn:E.
    + rewrite length_app in Hlen'. lia.
    + rewrite IH by done. by rewrite <- app_assoc.
Qed.

Lemma join_chunks_plain (stream : list StreamItem) :
  plain_stream stream ->
  FetchCsv.join_chunks stream = Some (List.concat (leading_chunks stream)).
Proof.
  induction stream as [|item stream IH]; intros Hplain; [reflexivity|].
  apply Forall_cons in Hplain as [Hitem Hplain].
  destruct item as [[|b chunk]|]; [done| |done]. simpl. by rewrite IH.
Qed.




(** X16. The two downloaders agree on a well-behaved stream. For a
    response whose stream raises nothing and holds no empty chunk, with
    at most 60 MiB in all, [download_pdf] of [fetch_csv.py] returns what
    [download_pdf] of [download_pdfs.py] returns: the whole body when it
    starts with [%PDF], [None] otherwise or when the status is not
    200. On a failed request the first raises where the second returns
    [None]. *)
Theorem downloaders_agree (get : string -> GetOutcome) (url : string) :
  (forall status_code iter_content,
     get url = GetResponse status_code iter_content ->
     plain_stream iter_content ->
     (Z.of_nat (length (List.concat (leading_chunks iter_content))) <=
      60 * 1024 * 1024)%Z ->
     FetchCsv.download_pdf get url = FetchCsv.Returned (DownloadPdfs.download_pdf get url)) /\
  (get url = GetRaises ->
   FetchCsv.download_pdf get url = FetchCsv.Raised /\
   DownloadPdfs.download_pdf get url = None).
Proof.
  unfold FetchCsv.download_pdf, DownloadPdfs.download_pdf. split.
  - intros status_code iter_content -> Hplain Hlen.
    destruct (negb (status_code =? 200)%Z); [reflexivity|].
    rewrite join_chunks_plain by done.
    rewrite (read_stream_plain [] iter_content Hplain) by exact Hlen.
    unfold FetchCsv.is_pdf. simpl.
    by destruct (bool_decide _).
  - by intros ->.
Qed.

Lemma downloaders_agree_witness :
  FetchCsv.download_pdf (fun _ => GetResponse 200 two_chunk_pdf) "https://nse/a.pdf" =
    FetchCsv.Returned
      (DownloadPdfs.download_pdf (fun _ => GetResponse 200 two_chunk_pdf)
         "https://nse/a.pdf").
Proof.
  apply (proj1 (downloaders_agree (fun _ => GetResponse 200 two_chunk_pdf)
                  "https://nse/a.pdf") 200%Z two_chunk_pdf eq_refl).
  - repeat constructor.
  - vm_compute. discriminate.
Defined.

(** *** File names and paths *)

Lemma append_nil_r (s : string) : s ++ "" = s.
Proof.
  induction s as [|c s IH]; [reflexivity|]. by rewrite append_cons, IH.
Qed.

Lemma append_snoc (cur s : string) (c : ascii) :
  (cur ++ String c "") ++ s = cur ++ String c s.
Proof.
  induction cur as [|d cur IH]; [reflexivity|]. by rewrite !append_cons, IH.
Qed.

Lemma split_runs_last (sep : ascii) (cur s : string) :
  exists seg,
    last (split_runs sep cur s) = Some seg /\
    ((free_of sep s /\ seg = cur ++ s) \/
     (exists pre, s = pre ++ String sep seg /\ free_of sep seg)).
Proof.
  revert cur. induction s as [|c s IH]; intros cur; simpl.
  - exists cur. split; [reflexivity|]. left. split; [reflexivity|].
    by rewrite append_nil_r.
  - destruct (Ascii.eqb c sep) eqn:E.
    + apply Ascii.eqb_eq in E as ->.
      destruct (IH "") as (seg & Hlast & Hseg). exists seg. split.
      * destruct (split_runs sep "" s) eqn:Hs; [discriminate|]. exact Hlast.
      * right. destruct Hseg as [[Hfree ->]|(pre & -> & Hfree)].
        -- exists "". by rewrite !append_nil_l.
        -- exists (String sep pre). by rewrite append_cons.
    + destruct (IH (cur ++ String c "")) as (seg & Hlast & Hseg). exists seg.
      split; [exact Hlast|]. destruct Hseg as [[Hfree ->]|(pre & -> & Hfree)].
      * left. split.
        -- unfold free_of. simpl. rewrite E. exact Hfree.
        -- apply append_snoc.
      * right. exists (String c pre). by rewrite append_cons.
Qed.

(** X17. The file name taken from a URL. [url.split("/")[-1]] holds no
    [/]; it is the whole URL when the URL holds no [/], and otherwise
    the URL is some text, a [/] and the file name: the file name is what
    follows the last [/], and is empty for a URL that ends with [/]. *)
Theorem last_segment_of_url (url : string) :
  free_of "/" (last_segment url) /\
  ((free_of "/" url /\ last_segment url = url) \/
   (exists pre, url = pre ++ String "/" (last_segment url))) /\
  (forall pre, last_segment (pre ++ "/") = "").
Proof.
  assert (Hseg : forall s, exists seg,
    last_segment s = seg /\
    ((free_of "/" s /\ seg = s) \/
     (exists pre, s = pre ++ String "/" seg /\ free_of "/" seg))).
  { intros s. unfold last_segment, split.
    destruct (split_runs_last "/" "" s) as (seg & -> & H). exists seg.
    split; [reflexivity|]. by rewrite append_nil_l in H. }
  split; [|split].
  - destruct (Hseg url) as (seg & -> & [[Hfree ->]|(pre & _ & Hfree)]); done.
  - destruct (Hseg url) as (seg & Hs & [[Hfree ->]|(pre & Hurl & Hfree)]).
    + left. by rewrite Hs.
    + right. exists pre. by rewrite Hs.
  - intros pre. unfold last_segment, split.
    assert (H : forall cur, last (split_runs "/" cur (pre ++ "/")) = Some "").
    { induction pre as [|c pre IH]; intros cur.
      - reflexivity.
      - rewrite append_cons. simpl. destruct (Ascii.eqb c "/").
        + specialize (IH "").
          destruct (split_runs "/" "" (pre ++ "/")) eqn:Hs; [discriminate|]. exact IH.
        + apply IH. }
    by rewrite H.
Qed.

(** X18. Two ways to number the quarter. For every month from 1 to 12,
    [get_quarter] of the document pipeline gives the quarter of the
    financial year that starts in April (April to June is [Q1], January
    to March is [Q4]), [process_data] of the results export gives the
    calendar quarter, and the two numbers are related by a shift of
    three quarters, so the two scripts never file the same date under
    the same quarter number. *)
Theorem quarters_fiscal_and_calendar (year month : Z) :
  (1 <= month <= 12)%Z ->
  let dt := mkDatetime year month in
  let calendar := FinancialsExport.quarter dt in
  let fiscal := ((calendar + 2) mod 4 + 1)%Z in
  (1 <= calendar <= 4)%Z /\
  ((calendar - 1) * 3 + 1 <= month <= calendar * 3)%Z /\
  DownloadPdfs.get_quarter dt = "Q" ++ str_of_int fiscal /\
  DownloadPdfs.get_quarter dt <> "Q" ++ str_of_int calendar.
Proof.
  intros Hm.
  assert (H : (month = 1 \/ month = 2 \/ month = 3 \/ month = 4 \/ month = 5 \/
               month = 6 \/ month = 7 \/ month = 8 \/ month = 9 \/ month = 10 \/
               month = 11 \/ month = 12)%Z) by lia.
  clear Hm.
  repeat (destruct H as [-> | H]); try subst month;
    (split; [vm_compute; split; discriminate|]);
    (split; [vm_compute; split; discriminate|]);
    (split; [vm_compute; reflexivity|vm_compute; discriminate]).
Qed.

Lemma quarters_witness :
  DownloadPdfs.get_quarter (mkDatetime 2024 2) = "Q4" /\
  FinancialsExport.quarter (mkDatetime 2024 2) = 1%Z.
Proof.
  split.
  - exact (proj1 (proj2 (proj2 (quarters_fiscal_and_calendar 2024 2 ltac:(lia))))).
  - reflexivity.
Defined.

(** *** The pipeline [process] *)

Lemma upload_large_pdf_blob (data : list Byte.byte) :
  blob_after (DownloadPdfs.upload_large_pdf data) = Some data.
Proof.
  assert (Hpos : 0 < Z.to_nat DownloadPdfs.BLOCK_SIZE)
    by (unfold DownloadPdfs.BLOCK_SIZE; lia).
  unfold DownloadPdfs.upload_large_pdf. cbv zeta.
  rewrite blob_after_blocks.
  - rewrite stage_blocks_concat by (done || lia). by rewrite drop_0.
  - rewrite stage_blocks_ids. apply (NoDup_fmap_2 _), NoDup_seq.
Qed.

Lemma download_pdf_some (get : string -> GetOutcome) (url : string)
    (data : list Byte.byte) :
  DownloadPdfs.download_pdf get url = Some data ->
  take 4 data = pdf_magic /\ (Z.of_nat (length data) <= 60 * 1024 * 1024)%Z.
Proof.
  unfold DownloadPdfs.download_pdf.
  destruct (get url) as [|status_code iter_content]; [discriminate|].
  destruct (negb _); [discriminate|].
  destruct (DownloadPdfs.read_stream [] iter_content) as [bytes|] eqn:Hread;
    [|discriminate].
  destruct (bool_decide (take 4 bytes = pdf_magic)) eqn:Hmagic; simpl; [|discriminate].
  intros [= <-]. apply bool_decide_eq_true_1 in Hmagic.
  apply read_stream_some in Hread as [_ Hlen]. split; [exact Hmagic|].
  unfold DownloadPdfs.max_size in Hlen. simpl in Hlen. lia.
Qed.

Lemma row_upload_some (w : DownloadPdfs.World) (row : DownloadPdfs.Row)
    (content : list Byte.byte) :
  row_upload w row = Some content ->
  DownloadPdfs.download_pdf (DownloadPdfs.session_get w) (row_url row) = Some content /\
  DownloadPdfs.upload_raises w (row_blob_path w row) = false.
Proof.
  unfold row_upload.
  destruct (DownloadPdfs.download_pdf _ _) as [[|b pdf]|]; try discriminate.
  destruct (DownloadPdfs.upload_raises _ _); [discriminate|].
  rewrite upload_large_pdf_blob. by intros [= <-].
Qed.

(** One row of [process], by cases. *)
Lemma process_row_unfold (w : DownloadPdfs.World) (row : DownloadPdfs.Row)
    (blobs : gmap string (list Byte.byte)) (requested : list string) :
  DownloadPdfs.process_row w (blobs, requested) row =
    if negb (Py.truthy (row_url row)) then (blobs, requested)
    else if bool_decide (is_Some (blobs !! row_blob_path w row)) then (blobs, requested)
    else
      match row_upload w row with
      | Some content =>
          (<[row_blob_path w row := content]> blobs, (requested ++ [row_url row])%list)
      | None => (blobs, (requested ++ [row_url row])%list)
      end.
Proof.
  unfold DownloadPdfs.process_row, row_upload, row_blob_path, row_url.
  destruct (negb (Py.truthy _)); [reflexivity|].
  destruct (bool_decide _); [reflexivity|].
  destruct (DownloadPdfs.download_pdf _ _) as [[|b pdf]|]; try reflexivity.
  destruct (DownloadPdfs.upload_raises _ _); [reflexivity|].
  by rewrite upload_large_pdf_blob.
Qed.

Lemma process_row_grows (w : DownloadPdfs.World) (row : DownloadPdfs.Row)
    (blobs : gmap string (list Byte.byte)) (requested : list string) :
  blobs ⊆ (DownloadPdfs.process_row w (blobs, requested) row).1 /\
  requested `prefix_of` (DownloadPdfs.process_row w (blobs, requested) row).2.
Proof.
  rewrite process_row_unfold.
  destruct (negb (Py.truthy _)); [done|].
  destruct (bool_decide _) eqn:E; [done|].
  apply bool_decide_eq_false_1 in E.
  destruct (row_upload w row); simpl.
  - split; [|by eexists]. apply insert_subseteq.
    destruct (blobs !! row_blob_path w row) eqn:El; [|done]. exfalso. apply E. by eexists.
  - split; [done|by eexists].
Qed.

Lemma process_cons (w : DownloadPdfs.World) (row : DownloadPdfs.Row)
    (rows : list DownloadPdfs.Row) (st : gmap string (list Byte.byte) * list string) :
  DownloadPdfs.process w (row :: rows) st =
    DownloadPdfs.process w rows (DownloadPdfs.process_row w st row).
Proof. reflexivity. Qed.

Lemma process_grows (w : DownloadPdfs.World) (rows : list DownloadPdfs.Row)
    (blobs : gmap string (list Byte.byte)) (requested : list string) :
  blobs ⊆ (DownloadPdfs.process w rows (blobs, requested)).1 /\
  requested `prefix_of` (DownloadPdfs.process w rows (blobs, requested)).2.
Proof.
  revert blobs requested. induction rows as [|row rows IH]; intros blobs requested; [done|].
  rewrite process_cons.
  pose proof (process_row_grows w row blobs requested) as [H1 H2].
  destruct (DownloadPdfs.process_row w (blobs, requested) row) as [blobs1 requested1].
  destruct (IH blobs1 requested1) as [H3 H4]. simpl in *.
  split; etrans; eauto.
Qed.

(** X19. [process] never overwrites or removes a blob, and adds checked
    documents only. Every blob of the container before the run is there
    after it with the same content; a blob that the run adds belongs to
    a row of the table with a non-empty URL, lies at the path built from
    the symbol, the date and the file name of that row, and holds
    exactly what [download_pdf] returned for the URL: bytes that start
    with [%PDF], at most 60 MiB. The URLs requested before the run stay
    at the front of the log. *)
Theorem process_keeps_blobs (w : DownloadPdfs.World) (rows : list DownloadPdfs.Row)
    (blobs : gmap string (list Byte.byte)) (requested : list string) :
  let after := DownloadPdfs.process w rows (blobs, requested) in
  (forall path content, blobs !! path = Some content -> after.1 !! path = Some content) /\
  (forall path content,
     after.1 !! path = Some content -> blobs !! path = None ->
     exists row,
       row ∈ rows /\ row_url row <> "" /\ path = row_blob_path w row /\
       DownloadPdfs.download_pdf (DownloadPdfs.session_get w) (row_url row)
         = Some content /\
       take 4 content = pdf_magic /\
       (Z.of_nat (length content) <= 60 * 1024 * 1024)%Z) /\
  requested `prefix_of` after.2.
Proof.
  intros after. subst after. split; [|split].
  - intros path content Hp.
    destruct (process_grows w rows blobs requested) as [Hsub _].
    by eapply lookup_weaken.
  - revert blobs requested. induction rows as [|row rows IH];
      intros blobs requested path content Hafter Hnew.
    + simpl in Hafter. congruence.
    + rewrite process_cons in Hafter.
      pose proof (process_row_unfold w row blobs requested) as Hrow.
      destruct (DownloadPdfs.process_row w (blobs, requested) row)
        as [blobs1 requested1] eqn:Hstep.
      destruct (blobs1 !! path) as [c1|] eqn:Hb1.
      * assert (c1 = content) as ->.
        { destruct (process_grows w rows blobs1 requested1) as [Hsub _].
          pose proof (lookup_weaken _ _ _ _ Hb1 Hsub). congruence. }
        exists row. split; [by left|].
        destruct (Py.truthy (row_url row)) eqn:Hurl; simpl in Hrow;
          [|injection Hrow as -> ->; congruence].
        destruct (bool_decide _); [injection Hrow as -> ->; congruence|].
        destruct (row_upload w row) as [c|] eqn:Hup;
          [|injection Hrow as -> ->; congruence].
        injection Hrow as -> ->.
        rewrite lookup_insert in Hb1. case_decide as Hpath; [|congruence].
        injection Hb1 as ->.
        apply row_upload_some in Hup as [Hdl _].
        split; [by apply truthy_true|]. split; [done|]. split; [exact Hdl|].
        by eapply download_pdf_some.
      * destruct (IH blobs1 requested1 path content Hafter Hb1) as (r & Hr & H).
        exists r. split; [by right|exact H].
  - apply process_grows.
Qed.

Lemma process_keeps_blobs_witness :
  (DownloadPdfs.process world_serving sample_rows
     ({[ "documents/CUPID/2024/Q1/old.pdf" := [Byte.x25] ]}, [])).1
    !! "documents/CUPID/2024/Q1/old.pdf" = Some [Byte.x25].
Proof.
  apply (proj1 (process_keeps_blobs world_serving sample_rows
                  {[ "documents/CUPID/2024/Q1/old.pdf" := [Byte.x25] ]} [])).
  apply lookup_singleton_eq.
Defined.

(** X20. Running [process] again changes nothing. In the same world (the
    same answers of the parser, the clock, the HTTP session and the blob
    client), a second run over the same table leaves the container as
    the first run left it: a row whose blob exists is skipped, and a row
    whose download or upload failed fails again. *)
Theorem process_idempotent (w : DownloadPdfs.World) (rows : list DownloadPdfs.Row)
    (blobs : gmap string (list Byte.byte)) (requested requested' : list string) :
  (DownloadPdfs.process w rows
     ((DownloadPdfs.process w rows (blobs, requested)).1, requested')).1
  = (DownloadPdfs.process w rows (blobs, requested)).1.
Proof.
  assert (Hsettled : forall rows blobs requested,
    forall row, row ∈ rows ->
    forall reqs, (DownloadPdfs.process_row w
                    ((DownloadPdfs.process w rows (blobs, requested)).1, reqs) row).1
                 = (DownloadPdfs.process w rows (blobs, requested)).1).
  { clear. induction rows as [|r rows IH]; intros blobs requested row Hin reqs;
      [by apply elem_of_nil in Hin|].
    rewrite process_cons.
    pose proof (process_row_unfold w r blobs requested) as Hrow.
    destruct (DownloadPdfs.process_row w (blobs, requested) r)
      as [blobs1 requested1] eqn:Hstep.
    apply elem_of_cons in Hin as [->|Hin]; [|by apply IH].
    destruct (process_grows w rows blobs1 requested1) as [Hsub _].
    set (final := (DownloadPdfs.process w rows (blobs1, requested1)).1) in *.
    rewrite process_row_unfold.
    destruct (negb (Py.truthy (row_url r))); [reflexivity|].
    destruct (bool_decide (is_Some (final !! row_blob_path w r))) eqn:Efinal;
      [reflexivity|].
    apply bool_decide_eq_false_1 in Efinal.
    destruct (bool_decide (is_Some (blobs !! row_blob_path w r))) eqn:Eblobs.
    { apply bool_decide_eq_true_1 in Eblobs as [c Hc]. injection Hrow as -> ->.
      exfalso. apply Efinal. exists c. by eapply lookup_weaken. }
    destruct (row_upload w r) as [c|]; [|reflexivity].
    injection Hrow as -> ->. exfalso. apply Efinal. exists c.
    eapply lookup_weaken; [|exact Hsub]. apply lookup_insert_eq. }
  assert (Hfold : forall (final : gmap string (list Byte.byte)) todo reqs,
    (forall row, row ∈ todo -> forall reqs,
       (DownloadPdfs.process_row w (final, reqs) row).1 = final) ->
    (DownloadPdfs.process w todo (final, reqs)).1 = final).
  { intros final todo. induction todo as [|row todo IH]; intros reqs Hall; [reflexivity|].
    rewrite process_cons.
    pose proof (Hall row (list_elem_of_here _ _) reqs) as Hrow.
    destruct (DownloadPdfs.process_row w (final, reqs) row) as [b r]. simpl in Hrow.
    subst b. apply IH. intros row' Hin. apply Hall. by right. }
  apply Hfold. intros row Hin reqs. by apply Hsettled.
Qed.
